(** * The Lighter WebSocket client (sdk/core/lighter-ws.js)

    A shallow embedding of the class [LighterWS]: its fields as a record,
    its methods and socket/timer callbacks as functions on that record, and
    the browser objects it drives (the WebSocket, [setTimeout],
    [setInterval], the subscribers' callbacks) as extra fields that record
    what the client asked of them. *)

From Stdlib Require Import List String Ascii ZArith Bool Arith Lia.
From Stdlib Require Import Permutation DecimalString DecimalPos.
Import ListNotations.
Open Scope string_scope.
Open Scope list_scope.

(** ** JavaScript values the client handles *)

(** [reconnectAttempts] and [maxReconnectAttempts] are numbers that may be
    [Infinity] (constructor, line 12; [disconnect], line 104). *)
Inductive jsnum : Type :=
| Fin (n : nat)
| Infinity.

(** [a >= b] on these numbers. *)
Definition jsnum_geb (a b : jsnum) : bool :=
  match a, b with
  | Infinity, _ => true
  | Fin _, Infinity => false
  | Fin x, Fin y => Nat.leb y x
  end.

(** [a > 0]. *)
Definition jsnum_pos (a : jsnum) : bool :=
  match a with
  | Infinity => true
  | Fin n => Nat.ltb 0 n
  end.

(** The [marketId] / [accountIndex] argument of [subscribe]: callers pass a
    number (a market or account index) or a string such as ['all']; it may
    also be missing. *)
Inductive jsval : Type :=
| JUndefined
| JNull
| JStr (s : string)
| JNum (n : N).

(** What a template literal [`${v}`] prints. *)
Definition to_js_string (v : jsval) : string :=
  match v with
  | JUndefined => "undefined"
  | JNull => "null"
  | JStr s => s
  | JNum n => NilEmpty.string_of_uint (N.to_uint n)
  end.

(** Truthiness of a value that is [null]/[undefined] ([None]) or a string. *)
Definition truthy (o : option string) : bool :=
  match o with
  | Some s => negb (s =? "")
  | None => false
  end.

(** [s.includes(':')] *)
Fixpoint includes_colon (s : string) : bool :=
  match s with
  | EmptyString => false
  | String c r => if Ascii.eqb c ":" then true else includes_colon r
  end.

(** [s.replace(':', '/')]: with a string pattern only the first occurrence
    is replaced. *)
Fixpoint replace_colon (s : string) : string :=
  match s with
  | EmptyString => EmptyString
  | String c r =>
      if Ascii.eqb c ":" then String "/" r else String c (replace_colon r)
  end.

(** ** Frames and inbound messages *)

(** The objects handed to [send].  [Subscribe] carries the optional [auth]
    field of the subscription message; [Other] is any other object a caller
    passes to the public [send]. *)
Inductive frame : Type :=
| Auth (token : string)
| Subscribe (channel : string) (auth : option string)
| Unsubscribe (channel : string)
| Ping
| Pong
| Other (body : string).

(** [message.type] after [JSON.parse]: missing or falsy, a string, or a
    truthy value that is not a string (on which [startsWith] is not a
    function). *)
Inductive jstype : Type :=
| TNone
| TStr (s : string)
| TOther.

(** The argument of [handleMessage] after [JSON.parse]: text that does not
    parse, a value that is not an object, or an object with its [type], its
    [channel] when that is a string, and whether [error] is truthy. *)
Inductive inbound : Type :=
| Unparseable
| NotObject
| Msg (type : jstype) (channel : option string) (error : bool).

(** Subscriber callbacks are opaque; a handler is known by its identity. *)
Definition handler := nat.

(** ** The subscription [Map]

    A JavaScript [Map] iterates in insertion order and [set] on a present key
    keeps the key's place, so the registry is an association list. *)
Definition registry := list (string * list handler).

Fixpoint map_get (k : string) (m : registry) : option (list handler) :=
  match m with
  | [] => None
  | (k', v) :: r => if k' =? k then Some v else map_get k r
  end.

Definition map_has (k : string) (m : registry) : bool :=
  match map_get k m with Some _ => true | None => false end.

Fixpoint map_set (k : string) (v : list handler) (m : registry) : registry :=
  match m with
  | [] => [(k, v)]
  | (k', v') :: r =>
      if k' =? k then (k, v) :: r else (k', v') :: map_set k v r
  end.

Fixpoint map_delete (k : string) (m : registry) : registry :=
  match m with
  | [] => []
  | (k', v') :: r =>
      if k' =? k then r else (k', v') :: map_delete k r
  end.

Definition map_keys (m : registry) : list string := map fst m.

(** ** The client *)

(** Fields the constructor sets and no method assigns afterwards. *)
Record config : Type := {
  authRefreshCallback : bool;    (* whether a refresh callback was given *)
  maxReconnectAttempts : jsnum;
  reconnectDelay : Z;
  maxReconnectDelay : Z;
  maxQueueSize : nat;
  heartbeatIntervalMs : Z
}.

(** The instance fields that methods assign, followed by the record of what
    the client did to its environment:
    - [ws]: the socket [this.ws] refers to, by creation index;
    - [heartbeatInterval]: whether an interval timer is installed;
    - [sockets]: how many [new WebSocket] were made;
    - [wire]: the frames [ws.send] accepted, oldest first;
    - [wsSendCalls]: how many times [ws.send] was called;
    - [closeCalls]: the sockets on which [close()] was called;
    - [reconnectTimers]: the delays of the [setTimeout] callbacks of
      [attemptReconnect] that have not fired yet;
    - [awaiting]: the [connect()] calls suspended at
      [await this.authRefreshCallback()];
    - [refreshCalls]: how many times the refresh callback was invoked;
    - [delivered]: the callback invocations, oldest first. *)
Record client : Type := {
  cfg : config;
  authToken : option string;
  ws : option nat;
  subscriptions : registry;
  reconnectAttempts : jsnum;
  isConnected : bool;
  shouldReconnect : bool;
  isAuthenticated : bool;
  messageQueue : list frame;
  heartbeatInterval : bool;
  lastPongTime : Z;
  sockets : nat;
  wire : list frame;
  wsSendCalls : nat;
  closeCalls : list nat;
  reconnectTimers : list Z;
  awaiting : nat;
  refreshCalls : nat;
  delivered : list (handler * inbound)
}.

Definition set_authToken (v : option string) (c : client) : client :=
  {| cfg := cfg c; authToken := v; ws := ws c;
     subscriptions := subscriptions c;
     reconnectAttempts := reconnectAttempts c; isConnected := isConnected c;
     shouldReconnect := shouldReconnect c;
     isAuthenticated := isAuthenticated c; messageQueue := messageQueue c;
     heartbeatInterval := heartbeatInterval c;
     lastPongTime := lastPongTime c; sockets := sockets c; wire := wire c;
     wsSendCalls := wsSendCalls c; closeCalls := closeCalls c;
     reconnectTimers := reconnectTimers c; awaiting := awaiting c;
     refreshCalls := refreshCalls c; delivered := delivered c |}.

Definition set_ws (v : option nat) (c : client) : client :=
  {| cfg := cfg c; authToken := authToken c; ws := v;
     subscriptions := subscriptions c;
     reconnectAttempts := reconnectAttempts c; isConnected := isConnected c;
     shouldReconnect := shouldReconnect c;
     isAuthenticated := isAuthenticated c; messageQueue := messageQueue c;
     heartbeatInterval := heartbeatInterval c;
     lastPongTime := lastPongTime c; sockets := sockets c; wire := wire c;
     wsSendCalls := wsSendCalls c; closeCalls := closeCalls c;
     reconnectTimers := reconnectTimers c; awaiting := awaiting c;
     refreshCalls := refreshCalls c; delivered := delivered c |}.

Definition set_subscriptions (v : registry) (c : client) : client :=
  {| cfg := cfg c; authToken := authToken c; ws := ws c; subscriptions := v;
     reconnectAttempts := reconnectAttempts c; isConnected := isConnected c;
     shouldReconnect := shouldReconnect c;
     isAuthenticated := isAuthenticated c; messageQueue := messageQueue c;
     heartbeatInterval := heartbeatInterval c;
     lastPongTime := lastPongTime c; sockets := sockets c; wire := wire c;
     wsSendCalls := wsSendCalls c; closeCalls := closeCalls c;
     reconnectTimers := reconnectTimers c; awaiting := awaiting c;
     refreshCalls := refreshCalls c; delivered := delivered c |}.

Definition set_reconnectAttempts (v : jsnum) (c : client) : client :=
  {| cfg := cfg c; authToken := authToken c; ws := ws c;
     subscriptions := subscriptions c; reconnectAttempts := v;
     isConnected := isConnected c; shouldReconnect := shouldReconnect c;
     isAuthenticated := isAuthenticated c; messageQueue := messageQueue c;
     heartbeatInterval := heartbeatInterval c;
     lastPongTime := lastPongTime c; sockets := sockets c; wire := wire c;
     wsSendCalls := wsSendCalls c; closeCalls := closeCalls c;
     reconnectTimers := reconnectTimers c; awaiting := awaiting c;
     refreshCalls := refreshCalls c; delivered := delivered c |}.

Definition set_isConnected (v : bool) (c : client) : client :=
  {| cfg := cfg c; authToken := authToken c; ws := ws c;
     subscriptions := subscriptions c;
     reconnectAttempts := reconnectAttempts c; isConnected := v;
     shouldReconnect := shouldReconnect c;
     isAuthenticated := isAuthenticated c; messageQueue := messageQueue c;
     heartbeatInterval := heartbeatInterval c;
     lastPongTime := lastPongTime c; sockets := sockets c; wire := wire c;
     wsSendCalls := wsSendCalls c; closeCalls := closeCalls c;
     reconnectTimers := reconnectTimers c; awaiting := awaiting c;
     refreshCalls := refreshCalls c; delivered := delivered c |}.

Definition set_shouldReconnect (v : bool) (c : client) : client :=
  {| cfg := cfg c; authToken := authToken c; ws := ws c;
     subscriptions := subscriptions c;
     reconnectAttempts := reconnectAttempts c; isConnected := isConnected c;
     shouldReconnect := v; isAuthenticated := isAuthenticated c;
     messageQueue := messageQueue c;
     heartbeatInterval := heartbeatInterval c;
     lastPongTime := lastPongTime c; sockets := sockets c; wire := wire c;
     wsSendCalls := wsSendCalls c; closeCalls := closeCalls c;
     reconnectTimers := reconnectTimers c; awaiting := awaiting c;
     refreshCalls := refreshCalls c; delivered := delivered c |}.

Definition set_isAuthenticated (v : bool) (c : client) : client :=
  {| cfg := cfg c; authToken := authToken c; ws := ws c;
     subscriptions := subscriptions c;
     reconnectAttempts := reconnectAttempts c; isConnected := isConnected c;
     shouldReconnect := shouldReconnect c; isAuthenticated := v;
     messageQueue := messageQueue c;
     heartbeatInterval := heartbeatInterval c;
     lastPongTime := lastPongTime c; sockets := sockets c; wire := wire c;
     wsSendCalls := wsSendCalls c; closeCalls := closeCalls c;
     reconnectTimers := reconnectTimers c; awaiting := awaiting c;
     refreshCalls := refreshCalls c; delivered := delivered c |}.

Definition set_messageQueue (v : list frame) (c : client) : client :=
  {| cfg := cfg c; authToken := authToken c; ws := ws c;
     subscriptions := subscriptions c;
     reconnectAttempts := reconnectAttempts c; isConnected := isConnected c;
     shouldReconnect := shouldReconnect c;
     isAuthenticated := isAuthenticated c; messageQueue := v;
     heartbeatInterval := heartbeatInterval c;
     lastPongTime := lastPongTime c; sockets := sockets c; wire := wire c;
     wsSendCalls := wsSendCalls c; closeCalls := closeCalls c;
     reconnectTimers := reconnectTimers c; awaiting := awaiting c;
     refreshCalls := refreshCalls c; delivered := delivered c |}.

Definition set_heartbeatInterval (v : bool) (c : client) : client :=
  {| cfg := cfg c; authToken := authToken c; ws := ws c;
     subscriptions := subscriptions c;
     reconnectAttempts := reconnectAttempts c; isConnected := isConnected c;
     shouldReconnect := shouldReconnect c;
     isAuthenticated := isAuthenticated c; messageQueue := messageQueue c;
     heartbeatInterval := v; lastPongTime := lastPongTime c;
     sockets := sockets c; wire := wire c; wsSendCalls := wsSendCalls c;
     closeCalls := closeCalls c; reconnectTimers := reconnectTimers c;
     awaiting := awaiting c; refreshCalls := refreshCalls c;
     delivered := delivered c |}.

Definition set_lastPongTime (v : Z) (c : client) : client :=
  {| cfg := cfg c; authToken := authToken c; ws := ws c;
     subscriptions := subscriptions c;
     reconnectAttempts := reconnectAttempts c; isConnected := isConnected c;
     shouldReconnect := shouldReconnect c;
     isAuthenticated := isAuthenticated c; messageQueue := messageQueue c;
     heartbeatInterval := heartbeatInterval c; lastPongTime := v;
     sockets := sockets c; wire := wire c; wsSendCalls := wsSendCalls c;
     closeCalls := closeCalls c; reconnectTimers := reconnectTimers c;
     awaiting := awaiting c; refreshCalls := refreshCalls c;
     delivered := delivered c |}.

Definition set_sockets (v : nat) (c : client) : client :=
  {| cfg := cfg c; authToken := authToken c; ws := ws c;
     subscriptions := subscriptions c;
     reconnectAttempts := reconnectAttempts c; isConnected := isConnected c;
     shouldReconnect := shouldReconnect c;
     isAuthenticated := isAuthenticated c; messageQueue := messageQueue c;
     heartbeatInterval := heartbeatInterval c;
     lastPongTime := lastPongTime c; sockets := v; wire := wire c;
     wsSendCalls := wsSendCalls c; closeCalls := closeCalls c;
     reconnectTimers := reconnectTimers c; awaiting := awaiting c;
     refreshCalls := refreshCalls c; delivered := delivered c |}.

Definition set_wire (v : list frame) (c : client) : client :=
  {| cfg := cfg c; authToken := authToken c; ws := ws c;
     subscriptions := subscriptions c;
     reconnectAttempts := reconnectAttempts c; isConnected := isConnected c;
     shouldReconnect := shouldReconnect c;
     isAuthenticated := isAuthenticated c; messageQueue := messageQueue c;
     heartbeatInterval := heartbeatInterval c;
     lastPongTime := lastPongTime c; sockets := sockets c; wire := v;
     wsSendCalls := wsSendCalls c; closeCalls := closeCalls c;
     reconnectTimers := reconnectTimers c; awaiting := awaiting c;
     refreshCalls := refreshCalls c; delivered := delivered c |}.

Definition set_wsSendCalls (v : nat) (c : client) : client :=
  {| cfg := cfg c; authToken := authToken c; ws := ws c;
     subscriptions := subscriptions c;
     reconnectAttempts := reconnectAttempts c; isConnected := isConnected c;
     shouldReconnect := shouldReconnect c;
     isAuthenticated := isAuthenticated c; messageQueue := messageQueue c;
     heartbeatInterval := heartbeatInterval c;
     lastPongTime := lastPongTime c; sockets := sockets c; wire := wire c;
     wsSendCalls := v; closeCalls := closeCalls c;
     reconnectTimers := reconnectTimers c; awaiting := awaiting c;
     refreshCalls := refreshCalls c; delivered := delivered c |}.

Definition set_closeCalls (v : list nat) (c : client) : client :=
  {| cfg := cfg c; authToken := authToken c; ws := ws c;
     subscriptions := subscriptions c;
     reconnectAttempts := reconnectAttempts c; isConnected := isConnected c;
     shouldReconnect := shouldReconnect c;
     isAuthenticated := isAuthenticated c; messageQueue := messageQueue c;
     heartbeatInterval := heartbeatInterval c;
     lastPongTime := lastPongTime c; sockets := sockets c; wire := wire c;
     wsSendCalls := wsSendCalls c; closeCalls := v;
     reconnectTimers := reconnectTimers c; awaiting := awaiting c;
     refreshCalls := refreshCalls c; delivered := delivered c |}.

Definition set_reconnectTimers (v : list Z) (c : client) : client :=
  {| cfg := cfg c; authToken := authToken c; ws := ws c;
     subscriptions := subscriptions c;
     reconnectAttempts := reconnectAttempts c; isConnected := isConnected c;
     shouldReconnect := shouldReconnect c;
     isAuthenticated := isAuthenticated c; messageQueue := messageQueue c;
     heartbeatInterval := heartbeatInterval c;
     lastPongTime := lastPongTime c; sockets := sockets c; wire := wire c;
     wsSendCalls := wsSendCalls c; closeCalls := closeCalls c;
     reconnectTimers := v; awaiting := awaiting c;
     refreshCalls := refreshCalls c; delivered := delivered c |}.

Definition set_awaiting (v : nat) (c : client) : client :=
  {| cfg := cfg c; authToken := authToken c; ws := ws c;
     subscriptions := subscriptions c;
     reconnectAttempts := reconnectAttempts c; isConnected := isConnected c;
     shouldReconnect := shouldReconnect c;
     isAuthenticated := isAuthenticated c; messageQueue := messageQueue c;
     heartbeatInterval := heartbeatInterval c;
     lastPongTime := lastPongTime c; sockets := sockets c; wire := wire c;
     wsSendCalls := wsSendCalls c; closeCalls := closeCalls c;
     reconnectTimers := reconnectTimers c; awaiting := v;
     refreshCalls := refreshCalls c; delivered := delivered c |}.

Definition set_refreshCalls (v : nat) (c : client) : client :=
  {| cfg := cfg c; authToken := authToken c; ws := ws c;
     subscriptions := subscriptions c;
     reconnectAttempts := reconnectAttempts c; isConnected := isConnected c;
     shouldReconnect := shouldReconnect c;
     isAuthenticated := isAuthenticated c; messageQueue := messageQueue c;
     heartbeatInterval := heartbeatInterval c;
     lastPongTime := lastPongTime c; sockets := sockets c; wire := wire c;
     wsSendCalls := wsSendCalls c; closeCalls := closeCalls c;
     reconnectTimers := reconnectTimers c; awaiting := awaiting c;
     refreshCalls := v; delivered := delivered c |}.

Definition set_delivered (v : list (handler * inbound)) (c : client) : client :=
  {| cfg := cfg c; authToken := authToken c; ws := ws c;
     subscriptions := subscriptions c;
     reconnectAttempts := reconnectAttempts c; isConnected := isConnected c;
     shouldReconnect := shouldReconnect c;
     isAuthenticated := isAuthenticated c; messageQueue := messageQueue c;
     heartbeatInterval := heartbeatInterval c;
     lastPongTime := lastPongTime c; sockets := sockets c; wire := wire c;
     wsSendCalls := wsSendCalls c; closeCalls := closeCalls c;
     reconnectTimers := reconnectTimers c; awaiting := awaiting c;
     refreshCalls := refreshCalls c; delivered := v |}.

(** Reading a field of an updated record. *)
Ltac fields :=
  cbn [
       cfg authToken ws subscriptions reconnectAttempts isConnected
       shouldReconnect isAuthenticated messageQueue heartbeatInterval
       lastPongTime sockets wire wsSendCalls closeCalls
       reconnectTimers awaiting refreshCalls delivered set_authToken
       set_ws set_subscriptions set_reconnectAttempts set_isConnected
       set_shouldReconnect set_isAuthenticated set_messageQueue
       set_heartbeatInterval set_lastPongTime set_sockets set_wire
       set_wsSendCalls set_closeCalls set_reconnectTimers set_awaiting
       set_refreshCalls set_delivered
       negb andb orb].

Tactic Notation "fields" "in" hyp(H) :=
  cbn [
       cfg authToken ws subscriptions reconnectAttempts isConnected
       shouldReconnect isAuthenticated messageQueue heartbeatInterval
       lastPongTime sockets wire wsSendCalls closeCalls
       reconnectTimers awaiting refreshCalls delivered set_authToken
       set_ws set_subscriptions set_reconnectAttempts set_isConnected
       set_shouldReconnect set_isAuthenticated set_messageQueue
       set_heartbeatInterval set_lastPongTime set_sockets set_wire
       set_wsSendCalls set_closeCalls set_reconnectTimers set_awaiting
       set_refreshCalls set_delivered
       negb andb orb] in H.

(** The constructor (lines 5-24); [now] is what [Date.now()] returns. *)
Definition default_config (refresh : bool) : config :=
  {| authRefreshCallback := refresh;
     maxReconnectAttempts := Infinity;
     reconnectDelay := 1000;
     maxReconnectDelay := 60000;
     maxQueueSize := 100;
     heartbeatIntervalMs := 30000 |}.

Definition constructor (token : option string) (refresh : bool) (now : Z)
  : client :=
  {| cfg := default_config refresh;
     authToken := token;
     ws := None;
     subscriptions := [];
     reconnectAttempts := Fin 0;
     isConnected := false;
     shouldReconnect := true;
     isAuthenticated := false;
     messageQueue := [];
     heartbeatInterval := false;
     lastPongTime := now;
     sockets := 0;
     wire := [];
     wsSendCalls := 0;
     closeCalls := [];
     reconnectTimers := [];
     awaiting := 0;
     refreshCalls := 0;
     delivered := [] |}.

(** The channel names of [WS_CHANNELS] (constants.js) used below. *)
Module WS_CHANNELS.
Definition ORDERBOOK := "order_book".
Definition HEIGHT := "height".
Definition ACCOUNT_MARKET := "account_market".
Definition ACCOUNT_ALL_ORDERS := "account_all_orders".
Definition ACCOUNT_ORDERS := "account_orders".
Definition CANDLES := "candles".
End WS_CHANNELS.

Section Methods.

(** The transport: [ws_throws n] tells whether the call number [n] (from 0)
    of [this.ws.send(JSON.stringify(message))] throws. *)
Variable ws_throws : nat -> bool.

(** [send], lines 171-194. *)
Definition send (message : frame) (c : client) : client :=
  if negb (isConnected c) then
    if Nat.ltb (List.length (messageQueue c)) (maxQueueSize (cfg c))
    then set_messageQueue (messageQueue c ++ [message]) c
    else set_messageQueue (tl (messageQueue c) ++ [message]) c
  else
    let caught (c' : client) :=
      if Nat.ltb (List.length (messageQueue c')) (maxQueueSize (cfg c'))
      then set_messageQueue (messageQueue c' ++ [message]) c'
      else c' in
    match ws c with
    | None => caught c              (* [this.ws] is null: TypeError *)
    | Some _ =>
        let c' := set_wsSendCalls (S (wsSendCalls c)) c in
        if ws_throws (wsSendCalls c) then caught c'
        else set_wire (wire c ++ [message]) c'
    end.

(** [flushMessageQueue], lines 196-201.  The [while] loop has no bound of
    its own; [fuel] bounds the iterations and [None] means they ran out. *)
Fixpoint flushMessageQueue (fuel : nat) (c : client) : option client :=
  match messageQueue c with
  | [] => Some c
  | message :: rest =>
      match fuel with
      | O => None
      | S fuel' =>
          flushMessageQueue fuel' (send message (set_messageQueue rest c))
      end
  end.

(** [stopHeartbeat], lines 164-169, and [startHeartbeat], lines 145-148. *)
Definition stopHeartbeat (c : client) : client :=
  if heartbeatInterval c then set_heartbeatInterval false c else c.

Definition startHeartbeat (c : client) : client :=
  set_heartbeatInterval true (stopHeartbeat c).

(** [this.ws.close()]; on a null [this.ws] it is a TypeError. *)
Definition ws_close (c : client) : client :=
  match ws c with
  | Some id => set_closeCalls (closeCalls c ++ [id]) c
  | None => c
  end.

(** The interval callback of [startHeartbeat], lines 148-161; it runs only
    while the interval is installed. *)
Definition heartbeat_tick (now : Z) (c : client) : client :=
  if heartbeatInterval c then
    if isConnected c then
      if (90000 <? now - lastPongTime c)%Z then ws_close c
      else send Ping c
    else c
  else c.

(** [resubscribeAll], lines 356-368. *)
Definition resubscribeAll (c : client) : client :=
  fold_left (fun c' channelKey => send (Subscribe channelKey None) c')
            (map_keys (subscriptions c)) c.

(** [new WebSocket(this.wsUrl)], line 44. *)
Definition new_socket (c : client) : client :=
  set_ws (Some (sockets c)) (set_sockets (S (sockets c)) c).

(** [connect], lines 26-44, up to the first suspension: with a refresh
    callback and [reconnectAttempts > 0] the call invokes the callback and
    waits for its promise; otherwise it goes on to create the socket. *)
Definition connect (c : client) : client :=
  let c := set_shouldReconnect true c in
  if jsnum_pos (reconnectAttempts c) && authRefreshCallback (cfg c) then
    set_awaiting (S (awaiting c)) (set_refreshCalls (S (refreshCalls c)) c)
  else new_socket c.

(** [connect], lines 37-44, after the promise settles: [Some token] when it
    resolves, [None] when it rejects (line 39). *)
Definition connect_resume (r : option (option string)) (c : client)
  : client :=
  match awaiting c with
  | O => c
  | S n =>
      let c := set_awaiting n c in
      let c := match r with Some token => set_authToken token c | None => c end in
      new_socket c
  end.

(** [ws.onopen], lines 46-72. *)
Definition onopen (fuel : nat) (now : Z) (c : client) : option client :=
  let c := set_isConnected true c in
  let c := set_reconnectAttempts (Fin 0) c in
  let c := set_lastPongTime now c in
  let c := match authToken c with
           | Some token => if truthy (Some token) then send (Auth token) c else c
           | None => c
           end in
  let c := if Nat.ltb 0 (List.length (subscriptions c)) then resubscribeAll c else c in
  match flushMessageQueue fuel c with
  | Some c => Some (startHeartbeat c)
  | None => None
  end.

(** [attemptReconnect], lines 121-143.  Past the guard the counter is
    finite, since [Infinity >= x] holds for every [x]. *)
Definition attemptReconnect (c : client) : client :=
  if negb (shouldReconnect c)
     || jsnum_geb (reconnectAttempts c) (maxReconnectAttempts (cfg c))
  then c
  else
    match reconnectAttempts c with
    | Infinity => c
    | Fin n =>
        let c := set_reconnectAttempts (Fin (S n)) c in
        let delay := Z.min (reconnectDelay (cfg c) * 2 ^ (Z.of_nat (S n) - 1))
                           (maxReconnectDelay (cfg c)) in
        set_reconnectTimers (reconnectTimers c ++ [delay]) c
    end.

(** The [setTimeout] callback of [attemptReconnect], lines 136-142, for the
    oldest pending timer. *)
Definition reconnect_timer (c : client) : client :=
  match reconnectTimers c with
  | [] => c
  | _ :: rest =>
      let c := set_reconnectTimers rest c in
      if shouldReconnect c then connect c else c
  end.

(** [ws.onclose], lines 83-95. *)
Definition onclose (c : client) : client :=
  let c := set_isConnected false c in
  let c := set_isAuthenticated false c in
  let c := stopHeartbeat c in
  if shouldReconnect c then attemptReconnect c else c.

(** [disconnect], lines 99-119. *)
Definition disconnect (c : client) : client :=
  let c := set_isConnected false c in
  let c := set_shouldReconnect false c in
  let c := set_isAuthenticated false c in
  let c := set_reconnectAttempts (maxReconnectAttempts (cfg c)) c in
  let c := stopHeartbeat c in
  let c := set_subscriptions [] c in
  let c := set_messageQueue [] c in
  match ws c with
  | Some id => set_ws None (set_closeCalls (closeCalls c ++ [id]) c)
  | None => c
  end.

(** [_routeToCallbacks], lines 285-305.  A callback that throws is caught
    (line 300) and the remaining ones still run. *)
Definition _routeToCallbacks (serverChannel : string) (message : inbound)
  (c : client) : client :=
  let callbacks :=
    match map_get serverChannel (subscriptions c) with
    | Some cbs => Some cbs
    | None =>
        if includes_colon serverChannel
        then map_get (replace_colon serverChannel) (subscriptions c)
        else None
    end in
  match callbacks with
  | Some cbs =>
      if Nat.ltb 0 (List.length cbs)
      then set_delivered (delivered c ++ map (fun cb => (cb, message)) cbs) c
      else c
  | None => c
  end.

Definition type_is (t : jstype) (s : string) : bool :=
  match t with
  | TStr s' => s' =? s
  | _ => false
  end.

(** [handleMessage], lines 203-283. *)
Definition handleMessage (data : inbound) (now : Z) (c : client) : client :=
  match data with
  | Unparseable => c
  | NotObject => c
  | Msg messageType channel error =>
      let route (c : client) :=
        match channel with
        | Some ch => if truthy channel then _routeToCallbacks ch data c else c
        | None => c
        end in
      if type_is messageType "ping" then set_lastPongTime now (send Pong c)
      else if type_is messageType "pong" then set_lastPongTime now c
      else if type_is messageType "connected" then c
      else if type_is messageType "auth_success"
              || type_is messageType "authenticated"
      then set_isAuthenticated true c
      else if type_is messageType "auth_failed"
              || type_is messageType "auth_error"
      then set_isAuthenticated false c
      else
        match messageType with
        | TOther => c        (* [startsWith] is not a function: caught *)
        | TStr s =>
            if prefix "subscribed/" s then route c
            else if prefix "update/" s then route c
            else if error then c
            else route c
        | TNone => if error then c else route c
        end
  end.

(** Lines 320-324 (and 396-400, 444-448, 468-472): create the entry if the
    key is new, then push the callback on its array. *)
Definition store_callback (storageKey : string) (callback : handler)
  (c : client) : client :=
  let c := if map_has storageKey (subscriptions c) then c
           else set_subscriptions (map_set storageKey [] (subscriptions c)) c in
  match map_get storageKey (subscriptions c) with
  | Some cbs =>
      set_subscriptions
        (map_set storageKey (cbs ++ [callback]) (subscriptions c)) c
  | None => c
  end.

(** [subscribe], lines 307-341. *)
Definition invalid_marketId (marketId : jsval) : bool :=
  match marketId with
  | JUndefined => true
  | JNull => true
  | JStr s => s =? ""
  | JNum _ => false
  end.

Definition subscribe (channel : string) (marketId : jsval)
  (callback : handler) (auth : option string) (c : client) : client :=
  if invalid_marketId marketId then c
  else
    let subscriptionChannel := (channel ++ "/" ++ to_js_string marketId)%string in
    let storageKey := subscriptionChannel in
    let c := store_callback storageKey callback c in
    let subMessage :=
      Subscribe subscriptionChannel (if truthy auth then auth else None) in
    send subMessage c.

(** [unsubscribe], lines 343-354. *)
Definition unsubscribe (channel : string) (marketId : jsval) (c : client)
  : client :=
  let subscriptionChannel := (channel ++ "/" ++ to_js_string marketId)%string in
  let c := set_subscriptions
             (map_delete subscriptionChannel (subscriptions c)) c in
  send (Unsubscribe subscriptionChannel) c.

(** The subscription methods that do not go through [subscribe]:
    [subscribeAccountOrders] (lines 390-409), [subscribeAccountMarket]
    (lines 463-481) and [subscribeHeight] (lines 440-456). *)
Definition subscribeAccountOrders (marketId accountIndex : jsval)
  (authToken : option string) (callback : handler) (c : client) : client :=
  let channel := (WS_CHANNELS.ACCOUNT_ORDERS ++ "/" ++ to_js_string marketId)%string in
  let storageKey := (channel ++ "/" ++ to_js_string accountIndex)%string in
  let c := store_callback storageKey callback c in
  send (Subscribe (WS_CHANNELS.ACCOUNT_ORDERS ++ "/" ++ to_js_string marketId
                   ++ "/" ++ to_js_string accountIndex)%string authToken) c.

Definition subscribeAccountMarket (marketId accountIndex : jsval)
  (authToken : option string) (callback : handler) (c : client) : client :=
  let channel := (WS_CHANNELS.ACCOUNT_MARKET ++ "/" ++ to_js_string marketId)%string in
  let storageKey := (channel ++ "/" ++ to_js_string accountIndex)%string in
  let c := store_callback storageKey callback c in
  send (Subscribe (WS_CHANNELS.ACCOUNT_MARKET ++ "/" ++ to_js_string marketId
                   ++ "/" ++ to_js_string accountIndex)%string authToken) c.

Definition subscribeHeight (callback : handler) (c : client) : client :=
  let channel := WS_CHANNELS.HEIGHT in
  let c := store_callback channel callback c in
  send (Subscribe channel None) c.

(** Three of the wrappers around [subscribe] (lines 372-374, 385-388,
    507-509). *)
Definition subscribeOrderBook (marketId : jsval) (callback : handler)
  : client -> client :=
  subscribe WS_CHANNELS.ORDERBOOK marketId callback None.

Definition subscribeAccountAllOrders (accountIndex : jsval)
  (authToken : option string) (callback : handler) : client -> client :=
  subscribe WS_CHANNELS.ACCOUNT_ALL_ORDERS accountIndex callback authToken.

Definition subscribeCandles (marketId : jsval) (interval : string)
  (callback : handler) : client -> client :=
  subscribe (WS_CHANNELS.CANDLES ++ ":" ++ interval)%string marketId callback None.

(** ** Events

    Everything that runs code of the client: calls of its public methods, the
    socket's callbacks, the timers' callbacks and the continuation of a
    suspended [connect].  The scheduler runs each to completion. *)
Inductive event : Type :=
| Connect
| RefreshSettled (r : option (option string))
| OnOpen (now : Z)
| OnMessage (data : inbound) (now : Z)
| OnError
| OnClose
| Disconnect
| ReconnectTimer
| HeartbeatTimer (now : Z)
| Send (message : frame)
| Sub (channel : string) (marketId : jsval) (callback : handler)
      (auth : option string)
| Unsub (channel : string) (marketId : jsval)
| SubAccountOrders (marketId accountIndex : jsval) (auth : option string)
                   (callback : handler)
| SubAccountMarket (marketId accountIndex : jsval) (auth : option string)
                   (callback : handler)
| SubHeight (callback : handler).

Definition step (fuel : nat) (c : client) (e : event) : option client :=
  match e with
  | Connect => Some (connect c)
  | RefreshSettled r => Some (connect_resume r c)
  | OnOpen now => onopen fuel now c
  | OnMessage data now => Some (handleMessage data now c)
  | OnError => Some c                  (* line 78: logs and rejects *)
  | OnClose => Some (onclose c)
  | Disconnect => Some (disconnect c)
  | ReconnectTimer => Some (reconnect_timer c)
  | HeartbeatTimer now => Some (heartbeat_tick now c)
  | Send m => Some (send m c)
  | Sub ch mid cb auth => Some (subscribe ch mid cb auth c)
  | Unsub ch mid => Some (unsubscribe ch mid c)
  | SubAccountOrders mid acc auth cb =>
      Some (subscribeAccountOrders mid acc auth cb c)
  | SubAccountMarket mid acc auth cb =>
      Some (subscribeAccountMarket mid acc auth cb c)
  | SubHeight cb => Some (subscribeHeight cb c)
  end.

Fixpoint run (fuel : nat) (c : client) (es : list event) : option client :=
  match es with
  | [] => Some c
  | e :: es' =>
      match step fuel c e with
      | Some c' => run fuel c' es'
      | None => None
      end
  end.

End Methods.

(** A transport whose [send] never throws. *)
Definition reliable : nat -> bool := fun _ => false.

(** * Properties *)

(** ** The registry *)

Lemma map_get_set_same (k : string) (v : list handler) (m : registry) :
  map_get k (map_set k v m) = Some v.
Proof.
  induction m as [|[k' v'] r IH]; simpl.
  - now rewrite String.eqb_refl.
  - destruct (k' =? k)%string eqn:E; simpl.
    + now rewrite String.eqb_refl.
    + now rewrite E.
Qed.

Lemma map_get_set_other (k k0 : string) (v : list handler) (m : registry) :
  k0 <> k -> map_get k0 (map_set k v m) = map_get k0 m.
Proof.
  intros Hne. induction m as [|[k' v'] r IH]; simpl.
  - destruct (k =? k0)%string eqn:E; [|reflexivity].
    apply String.eqb_eq in E. congruence.
  - destruct (k' =? k)%string eqn:E; simpl.
    + apply String.eqb_eq in E. subst k'.
      destruct (k =? k0)%string eqn:E0; [|reflexivity].
      apply String.eqb_eq in E0. congruence.
    + destruct (k' =? k0)%string; [reflexivity|exact IH].
Qed.

Lemma map_get_In (k : string) (m : registry) (v : list handler) :
  map_get k m = Some v -> In k (map_keys m).
Proof.
  induction m as [|[k' v'] r IH]; simpl; [discriminate|].
  destruct (k' =? k)%string eqn:E.
  - apply String.eqb_eq in E. now left.
  - intros H. right. now apply IH.
Qed.

Lemma map_get_None (k : string) (m : registry) :
  map_get k m = None -> ~ In k (map_keys m).
Proof.
  induction m as [|[k' v'] r IH]; simpl; [tauto|].
  destruct (k' =? k)%string eqn:E; [discriminate|].
  apply String.eqb_neq in E. intros H [H1|H1]; [congruence|].
  now apply IH.
Qed.

(** [set] on a present key leaves the order of the keys alone; on a new key
    it appends the key. *)
Lemma map_keys_set (k : string) (v : list handler) (m : registry) :
  map_keys (map_set k v m) =
  if map_has k m then map_keys m else map_keys m ++ [k].
Proof.
  unfold map_has. induction m as [|[k' v'] r IH]; simpl; [reflexivity|].
  destruct (k' =? k)%string eqn:E; simpl.
  - apply String.eqb_eq in E. now subst.
  - rewrite IH. now destruct (map_get k r).
Qed.

Lemma map_keys_delete_incl (k : string) (m : registry) :
  incl (map_keys (map_delete k m)) (map_keys m).
Proof.
  induction m as [|[k' v'] r IH]; simpl; [apply incl_refl|].
  destruct (k' =? k)%string.
  - apply incl_tl, incl_refl.
  - simpl. intros x [Hx|Hx]; [now left|right; now apply IH].
Qed.

(** The keys of a [Map] are distinct; every operation keeps them so. *)
Definition registry_ok (m : registry) : Prop := NoDup (map_keys m).

Lemma map_set_ok (k : string) (v : list handler) (m : registry) :
  registry_ok m -> registry_ok (map_set k v m).
Proof.
  unfold registry_ok. intros H. rewrite map_keys_set. unfold map_has.
  destruct (map_get k m) eqn:E; [exact H|].
  apply map_get_None in E.
  apply NoDup_rev in H. rewrite <- (rev_involutive (map_keys m ++ [k])).
  apply NoDup_rev. rewrite rev_app_distr. simpl. constructor; [|exact H].
  now rewrite <- in_rev.
Qed.

Lemma map_delete_ok (k : string) (m : registry) :
  registry_ok m -> registry_ok (map_delete k m).
Proof.
  unfold registry_ok. induction m as [|[k' v'] r IH]; simpl; [auto|].
  intros H. inversion H as [|? ? Hn Hr]; subst.
  destruct (k' =? k)%string; [exact Hr|].
  simpl. constructor; [|now apply IH].
  intros Hin. apply Hn. now apply (map_keys_delete_incl k r).
Qed.

(** ** What [send] touches *)

Section SendFrame.

Variable ws_throws : nat -> bool.

Ltac send_cases :=
  unfold send;
  repeat match goal with
    | |- context [match ws ?c with _ => _ end] => destruct (ws c) eqn:?
    | |- context [if ?b then _ else _] => destruct b
    end; cbn; congruence.

Lemma send_cfg m c : cfg (send ws_throws m c) = cfg c.
Proof. send_cases. Qed.
Lemma send_subscriptions m c :
  subscriptions (send ws_throws m c) = subscriptions c.
Proof. send_cases. Qed.
Lemma send_isConnected m c : isConnected (send ws_throws m c) = isConnected c.
Proof. send_cases. Qed.
Lemma send_shouldReconnect m c :
  shouldReconnect (send ws_throws m c) = shouldReconnect c.
Proof. send_cases. Qed.
Lemma send_reconnectAttempts m c :
  reconnectAttempts (send ws_throws m c) = reconnectAttempts c.
Proof. send_cases. Qed.
Lemma send_ws m c : ws (send ws_throws m c) = ws c.
Proof. send_cases. Qed.
Lemma send_sockets m c : sockets (send ws_throws m c) = sockets c.
Proof. send_cases. Qed.
Lemma send_heartbeatInterval m c :
  heartbeatInterval (send ws_throws m c) = heartbeatInterval c.
Proof. send_cases. Qed.
Lemma send_reconnectTimers m c :
  reconnectTimers (send ws_throws m c) = reconnectTimers c.
Proof. send_cases. Qed.
Lemma send_closeCalls m c : closeCalls (send ws_throws m c) = closeCalls c.
Proof. send_cases. Qed.
Lemma send_refreshCalls m c : refreshCalls (send ws_throws m c) = refreshCalls c.
Proof. send_cases. Qed.
Lemma send_awaiting m c : awaiting (send ws_throws m c) = awaiting c.
Proof. send_cases. Qed.
Lemma send_authToken m c : authToken (send ws_throws m c) = authToken c.
Proof. send_cases. Qed.

(** Connected, with a socket that takes the frame: the frame goes on the
    wire and the queue is left alone. *)
Lemma send_connected_ok m c :
  isConnected c = true -> ws c <> None -> ws_throws (wsSendCalls c) = false ->
  send ws_throws m c = set_wire (wire c ++ [m]) (set_wsSendCalls (S (wsSendCalls c)) c).
Proof.
  intros Hc Hw Ht. unfold send. rewrite Hc. simpl.
  destruct (ws c); [|congruence]. now rewrite Ht.
Qed.

(** Not connected: the frame is queued, behind the others; when the queue is
    at capacity its head makes room. *)
Lemma send_disconnected m c :
  isConnected c = false ->
  send ws_throws m c =
  set_messageQueue
    ((if Nat.ltb (List.length (messageQueue c)) (maxQueueSize (cfg c))
      then messageQueue c else tl (messageQueue c)) ++ [m]) c.
Proof.
  intros Hc. unfold send. rewrite Hc. simpl.
  now destruct (Nat.ltb _ _).
Qed.

End SendFrame.

(** ** Invalid market ids *)

(** C10: [subscribe] with a [marketId] that is [undefined], [null] or the
    empty string returns at once: the client is left exactly as it was, so
    the registry is unchanged, no callback is stored and no frame is sent or
    queued. *)
Theorem subscribe_invalid_marketId_noop :
  forall (ws_throws : nat -> bool) (fuel : nat) (channel : string)
         (callback : handler) (auth : option string) (c : client),
    subscribe ws_throws channel JUndefined callback auth c = c
    /\ subscribe ws_throws channel JNull callback auth c = c
    /\ subscribe ws_throws channel (JStr "") callback auth c = c
    /\ (forall marketId, invalid_marketId marketId = true ->
          step ws_throws fuel c (Sub channel marketId callback auth) = Some c).
Proof.
  intros. repeat split; try reflexivity.
  intros marketId H. simpl. unfold subscribe. now rewrite H.
Qed.

Lemma subscribe_invalid_marketId_noop_witness :
  step reliable 0 (constructor None false 0)
    (Sub "order_book" (JStr "") 7 None)
  = Some (constructor None false 0).
Proof.
  destruct (subscribe_invalid_marketId_noop reliable 0 "order_book" 7 None
              (constructor None false 0)) as (_ & _ & _ & H).
  apply H. reflexivity.
Defined.

(** ** Authentication failures *)

(** C8 (as the code has it): on [auth_failed] or [auth_error] the client
    only clears its [isAuthenticated] flag.  The refresh callback is not
    invoked, no [connect] is started, no frame is sent or queued, no
    callback is called and no timer is scheduled. *)
Theorem handleMessage_auth_failed :
  forall (ws_throws : nat -> bool) (channel : option string) (error : bool)
         (now : Z) (c : client),
    handleMessage ws_throws (Msg (TStr "auth_failed") channel error) now c
    = set_isAuthenticated false c
    /\ handleMessage ws_throws (Msg (TStr "auth_error") channel error) now c
       = set_isAuthenticated false c
    /\ refreshCalls (set_isAuthenticated false c) = refreshCalls c
    /\ awaiting (set_isAuthenticated false c) = awaiting c
    /\ authToken (set_isAuthenticated false c) = authToken c
    /\ wire (set_isAuthenticated false c) = wire c
    /\ messageQueue (set_isAuthenticated false c) = messageQueue c
    /\ delivered (set_isAuthenticated false c) = delivered c
    /\ reconnectTimers (set_isAuthenticated false c) = reconnectTimers c
    /\ subscriptions (set_isAuthenticated false c) = subscriptions c.
Proof. intros. repeat split. Qed.

(** C8 as written fails: after [auth_failed] on a connected client that was
    given a refresh callback, the callback has not been invoked, where one
    refresh was called for. *)
Lemma auth_failed_attempts_no_refresh :
  exists c,
    run reliable 10 (constructor (Some "t0") true 0) [Connect; OnOpen 5]
    = Some c
    /\ authRefreshCallback (cfg c) = true
    /\ refreshCalls
         (handleMessage reliable (Msg (TStr "auth_failed") None false) 6 c)
       <> S (refreshCalls c).
Proof.
  eexists. split; [vm_compute; reflexivity|].
  split; [reflexivity|]. vm_compute. discriminate.
Qed.

(** ** Subscribing *)

(** The key under which [subscribe] stores a subscription and the frame it
    hands to [send] (lines 315-335). *)
Definition channel_key (channel : string) (marketId : jsval) : string :=
  (channel ++ "/" ++ to_js_string marketId)%string.

Definition subscribe_frame (channel : string) (marketId : jsval)
  (auth : option string) : frame :=
  Subscribe (channel_key channel marketId) (if truthy auth then auth else None).

(** The state a run of events ends in, for writing down concrete clients. *)
Definition after (ws_throws : nat -> bool) (c : client) (es : list event)
  : client :=
  match run ws_throws 1000 c es with
  | Some c' => c'
  | None => c
  end.

Lemma map_set_set (k : string) (v w : list handler) (m : registry) :
  map_set k v (map_set k w m) = map_set k v m.
Proof.
  induction m as [|[k' v'] r IH]; simpl.
  - now rewrite String.eqb_refl.
  - destruct (k' =? k)%string eqn:E; simpl.
    + now rewrite String.eqb_refl.
    + now rewrite E, IH.
Qed.

(** [store_callback] pushes on the key's array, which is empty for a new
    key. *)
Lemma store_callback_subscriptions (k : string) (cb : handler) (c : client) :
  subscriptions (store_callback k cb c) =
  map_set k (match map_get k (subscriptions c) with
             | Some cbs => cbs ++ [cb]
             | None => [cb]
             end) (subscriptions c).
Proof.
  unfold store_callback, map_has.
  destruct (map_get k (subscriptions c)) eqn:E.
  - rewrite E. reflexivity.
  - cbn. rewrite map_get_set_same. cbn. apply map_set_set.
Qed.

Lemma store_callback_rest (k : string) (cb : handler) (c : client) :
  store_callback k cb c
  = set_subscriptions (subscriptions (store_callback k cb c)) c.
Proof.
  unfold store_callback, map_has.
  destruct (map_get k (subscriptions c)) eqn:E.
  - rewrite E. reflexivity.
  - cbn. rewrite map_get_set_same. reflexivity.
Qed.

(** C2 (as the code has it): a [subscribe] for a key that is already in the
    registry appends the handler to that key's callbacks, keeps the key's
    place and the other entries, and then hands a subscribe frame to [send]
    just as for a new key: the frame goes on the wire when the client is
    connected, and into the queue when it is not. *)
Theorem subscribe_existing_key :
  forall (ws_throws : nat -> bool) (channel : string) (marketId : jsval)
         (callback : handler) (auth : option string) (c : client)
         (cbs : list handler),
    invalid_marketId marketId = false ->
    map_get (channel_key channel marketId) (subscriptions c) = Some cbs ->
    map_get (channel_key channel marketId)
      (subscriptions (subscribe ws_throws channel marketId callback auth c))
    = Some (cbs ++ [callback])
    /\ map_keys (subscriptions (subscribe ws_throws channel marketId callback auth c))
       = map_keys (subscriptions c)
    /\ (forall k, k <> channel_key channel marketId ->
          map_get k (subscriptions (subscribe ws_throws channel marketId callback auth c))
          = map_get k (subscriptions c))
    /\ subscribe ws_throws channel marketId callback auth c
       = send ws_throws (subscribe_frame channel marketId auth)
           (set_subscriptions
              (map_set (channel_key channel marketId) (cbs ++ [callback])
                 (subscriptions c)) c)
    /\ (isConnected c = true -> ws c <> None ->
        ws_throws (wsSendCalls c) = false ->
        wire (subscribe ws_throws channel marketId callback auth c)
        = wire c ++ [subscribe_frame channel marketId auth])
    /\ (isConnected c = false ->
        List.length (messageQueue c) < maxQueueSize (cfg c) ->
        messageQueue (subscribe ws_throws channel marketId callback auth c)
        = messageQueue c ++ [subscribe_frame channel marketId auth]).
Proof.
  intros ws_throws channel marketId callback auth c cbs Hv Hg.
  assert (Hs : subscribe ws_throws channel marketId callback auth c
               = send ws_throws (subscribe_frame channel marketId auth)
                   (set_subscriptions
                      (map_set (channel_key channel marketId)
                         (cbs ++ [callback]) (subscriptions c)) c)).
  { unfold subscribe. rewrite Hv. cbv zeta.
    fold (channel_key channel marketId).
    rewrite store_callback_rest, store_callback_subscriptions, Hg.
    reflexivity. }
  rewrite Hs, send_subscriptions. cbn.
  split; [apply map_get_set_same|].
  split.
  { rewrite map_keys_set. unfold map_has. now rewrite Hg. }
  split; [intros k Hk; now apply map_get_set_other|].
  split; [reflexivity|].
  split.
  - intros Hc Hw Ht. rewrite send_connected_ok; auto.
  - intros Hc Hl. rewrite send_disconnected by exact Hc.
    cbn [messageQueue set_messageQueue set_subscriptions cfg].
    apply Nat.ltb_lt in Hl. now rewrite Hl.
Qed.

(** A connected client with one handler on [order_book/1]. *)
Definition one_subscription : client :=
  after reliable (constructor None false 0)
    [Connect; OnOpen 5; Sub "order_book" (JNum 1) 7 None].

Lemma subscribe_existing_key_witness :
  map_get (channel_key "order_book" (JNum 1))
    (subscriptions (subscribe reliable "order_book" (JNum 1) 8 None one_subscription))
  = Some ([7] ++ [8])
  /\ wire (subscribe reliable "order_book" (JNum 1) 8 None one_subscription)
     = wire one_subscription ++ [subscribe_frame "order_book" (JNum 1) None].
Proof.
  destruct (subscribe_existing_key reliable "order_book" (JNum 1) 8 None
              one_subscription [7])
    as (H1 & _ & _ & _ & H5 & _).
  - reflexivity.
  - reflexivity.
  - split; [exact H1|]. apply H5; [reflexivity|discriminate|reflexivity].
Defined.

(** C2 as written fails: the second [subscribe] for [order_book/1] on a
    connected client puts a second subscribe frame on the wire. *)
Lemma subscribe_existing_key_resends :
  map_has "order_book/1" (subscriptions one_subscription) = true
  /\ wire one_subscription = [Subscribe "order_book/1" None]
  /\ wire (subscribe reliable "order_book" (JNum 1) 8 None one_subscription)
     = [Subscribe "order_book/1" None; Subscribe "order_book/1" None]
  /\ wire (subscribe reliable "order_book" (JNum 1) 8 None one_subscription)
     <> wire one_subscription.
Proof.
  repeat split; try (vm_compute; reflexivity).
  vm_compute. discriminate.
Qed.

(** ** The outbound queue *)

Definition queue_bounded (c : client) : Prop :=
  List.length (messageQueue c) <= maxQueueSize (cfg c).

Section Queue.

Variable ws_throws : nat -> bool.

Lemma send_queue_bounded (m : frame) (c : client) :
  1 <= maxQueueSize (cfg c) ->
  queue_bounded c -> queue_bounded (send ws_throws m c).
Proof.
  unfold queue_bounded, send. intros Hcap Hq.
  destruct (isConnected c); fields.
  - destruct (ws c).
    + destruct (ws_throws (wsSendCalls c)); fields.
      * destruct (Nat.ltb_spec (List.length (messageQueue c)) (maxQueueSize (cfg c)));
          fields; [rewrite length_app; simpl; lia|exact Hq].
      * exact Hq.
    + destruct (Nat.ltb_spec (List.length (messageQueue c)) (maxQueueSize (cfg c)));
        fields; [rewrite length_app; simpl; lia|exact Hq].
  - destruct (Nat.ltb_spec (List.length (messageQueue c)) (maxQueueSize (cfg c)));
      fields; rewrite length_app; simpl; [lia|].
    destruct (messageQueue c); simpl in *; lia.
Qed.

(** The loop of [flushMessageQueue] only ends on an empty queue. *)
Lemma flush_empties (fuel : nat) :
  forall c c', flushMessageQueue ws_throws fuel c = Some c' ->
               messageQueue c' = [].
Proof.
  induction fuel as [|fuel IH]; intros c c'; simpl;
    destruct (messageQueue c) eqn:E; try discriminate.
  - intros H. injection H as <-. exact E.
  - intros H. injection H as <-. exact E.
  - apply IH.
Qed.

(** What the loop keeps. *)
Lemma flush_keeps (fuel : nat) :
  forall c c', flushMessageQueue ws_throws fuel c = Some c' ->
    cfg c' = cfg c /\ subscriptions c' = subscriptions c
    /\ isConnected c' = isConnected c
    /\ shouldReconnect c' = shouldReconnect c
    /\ reconnectAttempts c' = reconnectAttempts c
    /\ sockets c' = sockets c /\ ws c' = ws c
    /\ reconnectTimers c' = reconnectTimers c
    /\ heartbeatInterval c' = heartbeatInterval c
    /\ refreshCalls c' = refreshCalls c.
Proof.
  induction fuel as [|fuel IH]; intros c c'; simpl;
    destruct (messageQueue c) eqn:E; try discriminate.
  - intros H. injection H as <-. repeat split.
  - intros H. injection H as <-. repeat split.
  - intros H. apply IH in H.
    rewrite send_cfg, send_subscriptions, send_isConnected,
      send_shouldReconnect, send_reconnectAttempts, send_sockets, send_ws,
      send_reconnectTimers, send_heartbeatInterval, send_refreshCalls in H.
    exact H.
Qed.

(** With a socket that takes every frame, the loop sends the queue in order
    and ends within as many iterations as there are queued frames. *)
Lemma flush_reliable (fuel : nat) :
  forall c,
    isConnected c = true -> ws c <> None ->
    (forall n, wsSendCalls c <= n -> ws_throws n = false) ->
    List.length (messageQueue c) <= fuel ->
    exists c', flushMessageQueue ws_throws fuel c = Some c'
               /\ wire c' = wire c ++ messageQueue c
               /\ messageQueue c' = []
               /\ wsSendCalls c' = wsSendCalls c + List.length (messageQueue c).
Proof.
  induction fuel as [|fuel IH]; intros c Hc Hw Ht Hl; simpl.
  - destruct (messageQueue c) eqn:E; [|simpl in Hl; lia].
    exists c. rewrite E, app_nil_r. simpl. repeat split; auto.
  - destruct (messageQueue c) as [|m rest] eqn:E.
    + exists c. rewrite E, app_nil_r. simpl. repeat split; auto.
    + rewrite send_connected_ok; fields; auto.
      destruct (IH (set_wire (wire c ++ [m])
                     (set_wsSendCalls (S (wsSendCalls c))
                        (set_messageQueue rest c))))
        as (c' & Hf & Hwire & Hq & Hn); fields;
        [ assumption | assumption | intros n Hn; apply Ht; lia
        | simpl in Hl; lia | ].
      exists c'. fields in Hwire. fields in Hn.
      rewrite Hf, Hwire, Hn, <- app_assoc.
      simpl. repeat split; auto; lia.
Qed.

(** A frame whose send fails goes to the back of the queue and the loop goes
    on with the next one. *)
Lemma flush_failed_send (fuel : nat) (c : client) (m : frame)
  (rest : list frame) :
  isConnected c = true -> ws c <> None ->
  ws_throws (wsSendCalls c) = true ->
  messageQueue c = m :: rest ->
  List.length rest < maxQueueSize (cfg c) ->
  flushMessageQueue ws_throws (S fuel) c
  = flushMessageQueue ws_throws fuel
      (set_messageQueue (rest ++ [m])
         (set_wsSendCalls (S (wsSendCalls c)) c)).
Proof.
  intros Hc Hw Ht E Hl. simpl. rewrite E. f_equal.
  unfold send. fields. rewrite Hc. fields.
  destruct (ws c); [|congruence]. rewrite Ht.
  apply Nat.ltb_lt in Hl. now rewrite Hl.
Qed.

(** Whenever the loop ends, every queued frame has gone on the wire. *)
Lemma flush_loses_nothing (fuel : nat) :
  forall c c',
    isConnected c = true -> queue_bounded c ->
    flushMessageQueue ws_throws fuel c = Some c' ->
    Permutation (wire c') (wire c ++ messageQueue c).
Proof.
  induction fuel as [|fuel IH]; intros c c' Hc Hq; simpl;
    destruct (messageQueue c) as [|m rest] eqn:E; try discriminate.
  - intros H. injection H as <-. now rewrite app_nil_r.
  - intros H. injection H as <-. now rewrite app_nil_r.
  - intros H. unfold queue_bounded in Hq. rewrite E in Hq. simpl in Hq.
    assert (Hl : Nat.ltb (List.length rest) (maxQueueSize (cfg c)) = true)
      by (apply Nat.ltb_lt; lia).
    apply IH in H.
    + revert H. unfold send. fields. rewrite Hc. fields.
      destruct (ws c).
      * destruct (ws_throws (wsSendCalls c)); fields.
        -- rewrite Hl. fields. intros H. rewrite H.
           apply Permutation_app_head. symmetry. apply Permutation_cons_append.
        -- intros H. rewrite H, <- app_assoc. reflexivity.
      * rewrite Hl. fields. intros H. rewrite H.
        apply Permutation_app_head. symmetry. apply Permutation_cons_append.
    + now rewrite send_isConnected.
    + unfold queue_bounded, send. fields. rewrite Hc. fields.
      destruct (ws c).
      * destruct (ws_throws (wsSendCalls c)); fields.
        -- rewrite Hl. fields. rewrite length_app. simpl. lia.
        -- lia.
      * rewrite Hl. fields. rewrite length_app. simpl. lia.
Qed.

(** If the socket stops throwing after some call, the loop ends. *)
Lemma flush_terminates (N : nat) :
  (forall n, N <= n -> ws_throws n = false) ->
  forall fuel c,
    isConnected c = true -> ws c <> None ->
    (N - wsSendCalls c) + List.length (messageQueue c) <= fuel ->
    exists c', flushMessageQueue ws_throws fuel c = Some c'.
Proof.
  intros HN. induction fuel as [|fuel IH]; intros c Hc Hw Hl; simpl;
    destruct (messageQueue c) as [|m rest] eqn:E; try (now exists c).
  - simpl in Hl. lia.
  - simpl in Hl. apply IH.
    + now rewrite send_isConnected.
    + now rewrite send_ws.
    + unfold send. fields. rewrite Hc. fields.
      destruct (ws c); [|congruence].
      destruct (ws_throws (wsSendCalls c)) eqn:Et; fields.
      * assert (wsSendCalls c < N).
        { destruct (Nat.lt_ge_cases (wsSendCalls c) N); [assumption|].
          rewrite HN in Et by assumption. discriminate. }
        destruct (Nat.ltb _ _); fields; [rewrite length_app; simpl|]; lia.
      * lia.
Qed.

(** If every send throws, the loop never ends on a queue that is not empty:
    the frame it takes off the front comes back at the end. *)
Lemma flush_diverges (fuel : nat) :
  (forall n, ws_throws n = true) ->
  forall c,
    isConnected c = true -> queue_bounded c -> messageQueue c <> [] ->
    flushMessageQueue ws_throws fuel c = None.
Proof.
  intros Hall. induction fuel as [|fuel IH]; intros c Hc Hq Hne; simpl;
    destruct (messageQueue c) as [|m rest] eqn:E; try congruence.
  unfold queue_bounded in Hq. rewrite E in Hq. simpl in Hq.
  assert (Hl : Nat.ltb (List.length rest) (maxQueueSize (cfg c)) = true)
    by (apply Nat.ltb_lt; lia).
  apply IH.
  - now rewrite send_isConnected.
  - unfold queue_bounded, send. fields. rewrite Hc. fields.
    destruct (ws c); [rewrite Hall|]; fields; rewrite Hl; fields;
      rewrite length_app; simpl; lia.
  - unfold send. fields. rewrite Hc. fields.
    destruct (ws c); [rewrite Hall|]; fields; rewrite Hl; fields;
      now destruct rest.
Qed.

End Queue.

(** [stopHeartbeat] leaves no interval installed. *)
Lemma stopHeartbeat_eq (c : client) :
  stopHeartbeat c = set_heartbeatInterval false c.
Proof.
  unfold stopHeartbeat. destruct c as [? ? ? ? ? ? ? ? ? hb ? ? ? ? ? ? ? ? ?].
  now destruct hb.
Qed.

(** ** What the events keep *)

(** [send] and the loops built from it only touch the queue, the wire and
    the count of [ws.send] calls. *)
Definition transport_only (c c' : client) : Prop :=
  exists q w n,
    c' = set_messageQueue q (set_wire w (set_wsSendCalls n c)).

Lemma transport_only_refl (c : client) : transport_only c c.
Proof.
  exists (messageQueue c), (wire c), (wsSendCalls c). now destruct c.
Qed.

Lemma transport_only_trans (a b c : client) :
  transport_only a b -> transport_only b c -> transport_only a c.
Proof.
  intros (q & w & n & ->) (q' & w' & n' & ->). now exists q', w', n'.
Qed.

Section Keeps.

Variable ws_throws : nat -> bool.

Lemma send_transport_only (m : frame) (c : client) :
  transport_only c (send ws_throws m c).
Proof.
  unfold send.
  destruct (isConnected c); fields.
  - destruct (ws c).
    + destruct (ws_throws (wsSendCalls c)).
      * destruct (Nat.ltb _ _).
        -- now exists (messageQueue c ++ [m]), (wire c), (S (wsSendCalls c)).
        -- exists (messageQueue c), (wire c), (S (wsSendCalls c)).
           now destruct c.
      * exists (messageQueue c), (wire c ++ [m]), (S (wsSendCalls c)).
        now destruct c.
    + destruct (Nat.ltb _ _); [|apply transport_only_refl].
      exists (messageQueue c ++ [m]), (wire c), (wsSendCalls c).
      now destruct c.
  - destruct (Nat.ltb _ _).
    + exists (messageQueue c ++ [m]), (wire c), (wsSendCalls c).
      now destruct c.
    + exists (tl (messageQueue c) ++ [m]), (wire c), (wsSendCalls c).
      now destruct c.
Qed.

Lemma sends_transport_only (f : string -> frame) (l : list string) :
  forall c,
    transport_only c (fold_left (fun c' k => send ws_throws (f k) c') l c).
Proof.
  induction l as [|k l IH]; intros c; simpl.
  - apply transport_only_refl.
  - eapply transport_only_trans; [apply send_transport_only|apply IH].
Qed.

Lemma resubscribeAll_transport_only (c : client) :
  transport_only c (resubscribeAll ws_throws c).
Proof. apply sends_transport_only. Qed.

Lemma flush_transport_only (fuel : nat) :
  forall c c', flushMessageQueue ws_throws fuel c = Some c' ->
               transport_only c c'.
Proof.
  induction fuel as [|fuel IH]; intros c c'; simpl;
    destruct (messageQueue c) as [|m rest] eqn:E; try discriminate.
  - intros H. injection H as <-. apply transport_only_refl.
  - intros H. injection H as <-. apply transport_only_refl.
  - intros H. apply IH in H.
    destruct (send_transport_only m (set_messageQueue rest c))
      as (q & w & n & Hs).
    rewrite Hs in H. destruct H as (q' & w' & n' & ->).
    now exists q', w', n'.
Qed.

(** [onopen], when its flush ends, is three assignments, the sends, and the
    start of the heartbeat. *)
Lemma onopen_shape (fuel : nat) (now : Z) (c c' : client) :
  onopen ws_throws fuel now c = Some c' ->
  exists q w n,
    c' = set_heartbeatInterval true
           (set_messageQueue q (set_wire w (set_wsSendCalls n
              (set_lastPongTime now
                 (set_reconnectAttempts (Fin 0)
                    (set_isConnected true c)))))).
Proof.
  unfold onopen. intros H.
  set (c1 := set_lastPongTime now
               (set_reconnectAttempts (Fin 0) (set_isConnected true c))) in *.
  set (c2 := match authToken c1 with
             | Some token =>
                 if truthy (Some token) then send ws_throws (Auth token) c1
                 else c1
             | None => c1
             end) in *.
  set (c3 := if Nat.ltb 0 (List.length (subscriptions c2))
             then resubscribeAll ws_throws c2 else c2) in *.
  assert (H12 : transport_only c1 c2).
  { subst c2. destruct (authToken c1); [|apply transport_only_refl].
    destruct (truthy _); [apply send_transport_only|apply transport_only_refl]. }
  assert (H23 : transport_only c2 c3).
  { subst c3. destruct (Nat.ltb _ _);
      [apply resubscribeAll_transport_only|apply transport_only_refl]. }
  destruct (flushMessageQueue ws_throws fuel c3) as [c4|] eqn:Hf;
    [|discriminate].
  injection H as <-.
  apply flush_transport_only in Hf.
  destruct (transport_only_trans _ _ _ (transport_only_trans _ _ _ H12 H23) Hf)
    as (q & w & n & ->).
  exists q, w, n. unfold startHeartbeat. rewrite stopHeartbeat_eq.
  reflexivity.
Qed.

End Keeps.

Lemma store_callback_shape (k : string) (cb : handler) (c : client) :
  exists s, store_callback k cb c = set_subscriptions s c.
Proof. eexists. apply store_callback_rest. Qed.

(** Opening up a method: name what its sends and registry updates produce,
    then follow its branches. *)
Ltac send_shapes :=
  repeat match goal with
    | |- context [send ?t ?m ?c] =>
        let q := fresh "q" in let w := fresh "w" in let n := fresh "n" in
        destruct (send_transport_only t m c) as (q & w & n & ->)
    end.

Ltac store_shapes :=
  repeat match goal with
    | |- context [store_callback ?k ?cb ?c] =>
        let s := fresh "s" in
        destruct (store_callback_shape k cb c) as (s & ->)
    end.

Ltac branches :=
  repeat (fields;
          match goal with
          | |- context [match ?x with _ => _ end] => destruct x eqn:?
          end);
  fields.

Ltac unfold_methods :=
  unfold subscribe, unsubscribe, subscribeAccountOrders,
    subscribeAccountMarket, subscribeHeight, handleMessage,
    _routeToCallbacks, heartbeat_tick, ws_close, reconnect_timer, connect,
    connect_resume, new_socket, onclose, attemptReconnect, disconnect,
    stopHeartbeat.

Ltac open_method := unfold_methods; send_shapes; store_shapes; branches.

(** The events that neither call [connect()] nor come from a socket that is
    still opening nor resume a [connect()] that was suspended. *)
Definition quiet (e : event) : bool :=
  match e with
  | Connect => false
  | RefreshSettled _ => false
  | OnOpen _ => false
  | _ => true
  end.

(** What [disconnect] establishes. *)
Definition closed (c : client) : Prop :=
  shouldReconnect c = false /\ isConnected c = false
  /\ heartbeatInterval c = false.

Section Steps.

Variable ws_throws : nat -> bool.

(** No event assigns the fields of [config]. *)
Lemma step_cfg (fuel : nat) (c c' : client) (e : event) :
  step ws_throws fuel c e = Some c' -> cfg c' = cfg c.
Proof.
  destruct e; simpl; intros H;
    try (injection H as <-; open_method; reflexivity).
  apply onopen_shape in H as (q & w & n & ->). reflexivity.
Qed.

Lemma run_cfg (fuel : nat) (es : list event) :
  forall c c', run ws_throws fuel c es = Some c' -> cfg c' = cfg c.
Proof.
  induction es as [|e es IH]; intros c c'; simpl.
  - now intros [= <-].
  - destruct (step ws_throws fuel c e) as [c1|] eqn:E; [|discriminate].
    intros H. apply IH in H. apply step_cfg in E. congruence.
Qed.

(** The queue stays within a capacity of at least one. *)
Definition queue_inv (c : client) : Prop :=
  1 <= maxQueueSize (cfg c) /\ queue_bounded c.

Lemma send_queue_inv (m : frame) (c : client) :
  queue_inv c -> queue_inv (send ws_throws m c).
Proof.
  intros [H1 H2]. split; [now rewrite send_cfg|].
  now apply send_queue_bounded.
Qed.

Lemma queue_inv_same (c c' : client) :
  cfg c' = cfg c -> messageQueue c' = messageQueue c ->
  queue_inv c -> queue_inv c'.
Proof. unfold queue_inv, queue_bounded. now intros -> ->. Qed.

Ltac queue_inv_tac :=
  repeat first
    [ assumption
    | apply send_queue_inv
    | match goal with
      | |- queue_inv (store_callback ?k ?cb ?c) =>
          apply (queue_inv_same c);
          [ now rewrite store_callback_rest
          | now rewrite store_callback_rest | ]
      | |- queue_inv (?f ?v ?c) =>
          apply (queue_inv_same c); [reflexivity | reflexivity | ]
      end ].

Lemma step_queue_inv (fuel : nat) (c c' : client) (e : event) :
  queue_inv c -> step ws_throws fuel c e = Some c' -> queue_inv c'.
Proof.
  intros Hq. destruct e; simpl; intros H;
    try (injection H as <-; unfold_methods; branches; queue_inv_tac; fail).
  - (* OnOpen *)
    pose proof H as Hs. apply onopen_shape in Hs as (q & w & n & Hs).
    unfold onopen in H.
    destruct (flushMessageQueue _ _ _) as [c4|] eqn:Hf; [|discriminate].
    injection H as <-. apply flush_empties in Hf.
    destruct Hq as [H1 H2]. split.
    + rewrite Hs. exact H1.
    + unfold queue_bounded, startHeartbeat, stopHeartbeat.
      destruct (heartbeatInterval c4); fields; rewrite Hf; simpl; lia.
  - (* Disconnect *)
    injection H as <-. destruct Hq as [H1 H2].
    unfold queue_inv, queue_bounded, disconnect, stopHeartbeat.
    branches; simpl; lia.
Qed.

Lemma run_queue_inv (fuel : nat) (es : list event) :
  forall c c', queue_inv c -> run ws_throws fuel c es = Some c' ->
               queue_inv c'.
Proof.
  induction es as [|e es IH]; intros c c' Hq; simpl.
  - now intros [= <-].
  - destruct (step ws_throws fuel c e) as [c1|] eqn:E; [|discriminate].
    apply IH. now apply (step_queue_inv fuel c c1 e).
Qed.

(** The keys of the registry stay distinct. *)
Lemma store_callback_ok (k : string) (cb : handler) (c : client) :
  registry_ok (subscriptions c) ->
  registry_ok (subscriptions (store_callback k cb c)).
Proof.
  intros H. rewrite store_callback_subscriptions. now apply map_set_ok.
Qed.

Lemma step_registry_ok (fuel : nat) (c c' : client) (e : event) :
  registry_ok (subscriptions c) -> step ws_throws fuel c e = Some c' ->
  registry_ok (subscriptions c').
Proof.
  intros Hr. destruct e; simpl; intros H;
    try (injection H as <-; unfold_methods; send_shapes; branches;
         first [ assumption
               | apply store_callback_ok; assumption
               | apply map_delete_ok; assumption
               | apply NoDup_nil ]; fail).
  apply onopen_shape in H as (q & w & n & ->). exact Hr.
Qed.

Lemma run_registry_ok (fuel : nat) (es : list event) :
  forall c c', registry_ok (subscriptions c) ->
               run ws_throws fuel c es = Some c' ->
               registry_ok (subscriptions c').
Proof.
  induction es as [|e es IH]; intros c c' Hr; simpl.
  - now intros [= <-].
  - destruct (step ws_throws fuel c e) as [c1|] eqn:E; [|discriminate].
    apply IH. now apply (step_registry_ok fuel c c1 e).
Qed.

(** Only [onopen] brings the attempt counter back to zero. *)
Lemma step_attempts_zero (fuel : nat) (c c' : client) (e : event) :
  maxReconnectAttempts (cfg c) = Infinity ->
  step ws_throws fuel c e = Some c' ->
  reconnectAttempts c' = Fin 0 ->
  reconnectAttempts c = Fin 0 \/ exists now, e = OnOpen now.
Proof.
  intros Hmax. destruct e; simpl; intros H;
    try (injection H as <-; open_method; intros; left; congruence).
  intros _. right. now exists now.
Qed.

(** While the client is connected its heartbeat interval is installed. *)
Definition connected_beats (c : client) : Prop :=
  isConnected c = true -> heartbeatInterval c = true.

Lemma step_connected_beats (fuel : nat) (c c' : client) (e : event) :
  connected_beats c -> step ws_throws fuel c e = Some c' ->
  connected_beats c'.
Proof.
  unfold connected_beats. intros Hb. destruct e; simpl; intros H;
    try (injection H as <-; open_method; intros; intuition congruence).
  apply onopen_shape in H as (q & w & n & ->). reflexivity.
Qed.

Lemma run_connected_beats (fuel : nat) (es : list event) :
  forall c c', connected_beats c -> run ws_throws fuel c es = Some c' ->
               connected_beats c'.
Proof.
  induction es as [|e es IH]; intros c c' Hb; simpl.
  - now intros [= <-].
  - destruct (step ws_throws fuel c e) as [c1|] eqn:E; [|discriminate].
    apply IH. now apply (step_connected_beats fuel c c1 e).
Qed.

(** As long as [disconnect] has not been called, reconnecting stays enabled
    and the attempt counter stays finite. *)
Definition is_disconnect (e : event) : bool :=
  match e with
  | Disconnect => true
  | _ => false
  end.

Definition is_finite (a : jsnum) : bool :=
  match a with
  | Fin _ => true
  | Infinity => false
  end.

Definition reconnecting_enabled (c : client) : Prop :=
  shouldReconnect c = true /\ is_finite (reconnectAttempts c) = true.

Lemma step_reconnecting_enabled (fuel : nat) (c c' : client) (e : event) :
  is_disconnect e = false -> reconnecting_enabled c ->
  step ws_throws fuel c e = Some c' -> reconnecting_enabled c'.
Proof.
  unfold reconnecting_enabled. intros He [Hs Hf].
  destruct e; try discriminate; simpl; intros H;
    try (injection H as <-; open_method; split;
         first [assumption | reflexivity | congruence]).
  apply onopen_shape in H as (q & w & n & ->). now split.
Qed.

Lemma run_reconnecting_enabled (fuel : nat) (es : list event) :
  forall c c',
    forallb (fun e => negb (is_disconnect e)) es = true ->
    reconnecting_enabled c ->
    run ws_throws fuel c es = Some c' -> reconnecting_enabled c'.
Proof.
  induction es as [|e es IH]; intros c c' He Hr; simpl.
  - now intros [= <-].
  - simpl in He. apply andb_true_iff in He as [He Hes].
    apply negb_true_iff in He.
    destruct (step ws_throws fuel c e) as [c1|] eqn:E; [|discriminate].
    apply IH; [exact Hes|].
    now apply (step_reconnecting_enabled fuel c c1 e).
Qed.

(** A closed client stays closed under quiet events: no socket is made,
    nothing goes on the wire, no [connect] is left suspended. *)
Lemma step_closed (fuel : nat) (c : client) (e : event) :
  quiet e = true -> closed c ->
  exists c', step ws_throws fuel c e = Some c'
             /\ closed c' /\ sockets c' = sockets c /\ wire c' = wire c
             /\ awaiting c' = awaiting c
             /\ refreshCalls c' = refreshCalls c.
Proof.
  intros Hq (Hs & Hc & Hh).
  destruct e; try discriminate; simpl; eexists; (split; [reflexivity|]);
    unfold_methods; store_shapes;
    repeat (rewrite send_disconnected by (fields; assumption));
    fields; rewrite ?Hs, ?Hc, ?Hh; branches; unfold closed; fields;
    try congruence; repeat split; congruence.
Qed.

Lemma run_closed (fuel : nat) (es : list event) :
  forall c,
    Forall (fun e => quiet e = true) es -> closed c ->
    exists c', run ws_throws fuel c es = Some c'
               /\ closed c' /\ sockets c' = sockets c /\ wire c' = wire c
               /\ awaiting c' = awaiting c
               /\ refreshCalls c' = refreshCalls c.
Proof.
  induction es as [|e es IH]; intros c Hq Hc; simpl.
  - exists c. repeat split; auto; apply Hc.
  - inversion Hq as [|? ? He Hes]; subst.
    destruct (step_closed fuel c e He Hc)
      as (c1 & -> & Hc1 & Hs1 & Hw1 & Ha1 & Hr1).
    destruct (IH c1 Hes Hc1) as (c' & Hrun & Hc' & Hs' & Hw' & Ha' & Hr').
    exists c'. repeat split; try apply Hc'; congruence.
Qed.

End Steps.

(** ** C3: the capacity of the queue *)

(** The two places where [send] queues a frame.  Whatever events the client
    goes through, its queue never holds more than its capacity, which is
    100.  When [send] queues a frame because the client is not connected,
    the frame always ends up last in the queue, and at capacity it is the
    oldest frame that goes.  In the catch block, reached when the client is
    connected and the send fails, the frame is queued only if there is
    room: at capacity it is the new frame that is lost. *)
Theorem queue_capacity :
  forall (ws_throws : nat -> bool),
    (forall fuel token refresh now es c,
        run ws_throws fuel (constructor token refresh now) es = Some c ->
        maxQueueSize (cfg c) = 100
        /\ List.length (messageQueue c) <= 100)
    /\ (forall m c oldest rest,
          isConnected c = false ->
          messageQueue c = oldest :: rest ->
          List.length (messageQueue c) = maxQueueSize (cfg c) ->
          messageQueue (send ws_throws m c) = rest ++ [m])
    /\ (forall m c,
          isConnected c = false ->
          List.length (messageQueue c) < maxQueueSize (cfg c) ->
          messageQueue (send ws_throws m c) = messageQueue c ++ [m])
    /\ (forall m c,
          isConnected c = true ->
          ws c = None \/ ws_throws (wsSendCalls c) = true ->
          maxQueueSize (cfg c) <= List.length (messageQueue c) ->
          messageQueue (send ws_throws m c) = messageQueue c
          /\ wire (send ws_throws m c) = wire c).
Proof.
  intros ws_throws. split; [|split; [|split]].
  - intros fuel token refresh now es c H.
    assert (Hq : queue_inv (constructor token refresh now))
      by (split; [|unfold queue_bounded]; simpl; lia).
    destruct (run_queue_inv ws_throws fuel es _ _ Hq H) as [_ Hb].
    unfold queue_bounded in Hb. apply run_cfg in H. rewrite H in Hb.
    split; [now rewrite H|exact Hb].
  - intros m c oldest rest Hc E Hl.
    rewrite send_disconnected by exact Hc. fields.
    rewrite <- Hl, Nat.ltb_irrefl, E. reflexivity.
  - intros m c Hc Hl.
    rewrite send_disconnected by exact Hc. fields.
    apply Nat.ltb_lt in Hl. now rewrite Hl.
  - intros m c Hc Hfail Hfull. apply Nat.ltb_ge in Hfull.
    unfold send; rewrite Hc; fields.
    destruct Hfail as [Hw|Ht].
    + rewrite Hw, Hfull. now split.
    + destruct (ws c); [rewrite Ht|]; fields; rewrite Hfull; now split.
Qed.

(** A transport whose first [send] throws and whose later ones do not. *)
Definition first_throws : nat -> bool := fun n => Nat.eqb n 0.

(** A client with a token that queued a hundred frames before connecting,
    and the same client as [onopen] has it when it sends the auth frame
    (lines 48-50 done). *)
Definition full_queue : client :=
  after first_throws (constructor (Some "t") false 0)
    (repeat (Send (Other "x")) 100 ++ [Connect]).

Definition full_queue_open : client :=
  set_lastPongTime 5
    (set_reconnectAttempts (Fin 0) (set_isConnected true full_queue)).

Lemma queue_capacity_witness :
  List.length (messageQueue full_queue) <= 100
  /\ messageQueue (send first_throws Pong full_queue)
     = repeat (Other "x") 99 ++ [Pong]
  /\ messageQueue (send first_throws Pong (constructor None false 0))
     = messageQueue (constructor None false 0) ++ [Pong]
  /\ messageQueue (send first_throws (Auth "t") full_queue_open)
     = messageQueue full_queue_open.
Proof.
  destruct (queue_capacity first_throws) as (H1 & H2 & H3 & H4).
  split; [|split; [|split]].
  - apply (H1 1000 (Some "t") false 0%Z
             (repeat (Send (Other "x")) 100 ++ [Connect]) full_queue).
    vm_compute. reflexivity.
  - apply (H2 Pong full_queue (Other "x") (repeat (Other "x") 99));
      vm_compute; reflexivity.
  - apply (H3 Pong (constructor None false 0)); [reflexivity|].
    vm_compute. lia.
  - apply (H4 (Auth "t") full_queue_open).
    + reflexivity.
    + right. reflexivity.
    + vm_compute. lia.
Defined.

(** C3, where the code breaks it: with the queue at capacity, the auth
    frame that [onopen] sends is lost when the socket throws.  The catch
    block of [send] neither sends nor queues it, and the hundred older
    frames all stay, so the newest frame is the one dropped; the branch of
    the same [send] for a client that is not connected, given the same
    queue and the same frame, drops the oldest frame and keeps the new
    one. *)
Lemma full_queue_drops_newest :
  List.length (messageQueue full_queue) = maxQueueSize (cfg full_queue)
  /\ messageQueue (send first_throws (Auth "t") full_queue_open)
     = repeat (Other "x") 100
  /\ wire (send first_throws (Auth "t") full_queue_open) = []
  /\ messageQueue (send first_throws (Auth "t") full_queue_open)
     <> tl (messageQueue full_queue_open) ++ [Auth "t"]
  /\ messageQueue (send first_throws (Auth "t") full_queue)
     = repeat (Other "x") 99 ++ [Auth "t"]
  /\ exists c', onopen first_throws 1000 5 full_queue = Some c'
                /\ wire c' = repeat (Other "x") 100
                /\ messageQueue c' = [].
Proof.
  split; [vm_compute; reflexivity|].
  split; [vm_compute; reflexivity|].
  split; [vm_compute; reflexivity|].
  split; [vm_compute; discriminate|].
  split; [vm_compute; reflexivity|].
  eexists. split; [vm_compute; reflexivity|].
  split; vm_compute; reflexivity.
Qed.

(** ** C6: flushing the queue *)

(** C6 (as the code has it): [flushMessageQueue], run by [onopen] on a
    connected client, sends the queued frames oldest first and empties the
    queue when no send fails.  A frame whose send fails is not dropped: it
    goes to the back of the queue and the loop goes on with the frames that
    were behind it, so the flush is not aborted and that frame is sent after
    them.  Whenever the loop ends the queue is empty and every queued frame
    has been sent once. *)
Theorem flush_order :
  forall (ws_throws : nat -> bool) (fuel : nat) (c : client),
    isConnected c = true -> ws c <> None -> queue_bounded c ->
    ((forall n, wsSendCalls c <= n -> ws_throws n = false) ->
     List.length (messageQueue c) <= fuel ->
     exists c', flushMessageQueue ws_throws fuel c = Some c'
                /\ wire c' = wire c ++ messageQueue c
                /\ messageQueue c' = [])
    /\ (forall m rest,
          messageQueue c = m :: rest ->
          ws_throws (wsSendCalls c) = true ->
          flushMessageQueue ws_throws (S fuel) c
          = flushMessageQueue ws_throws fuel
              (set_messageQueue (rest ++ [m])
                 (set_wsSendCalls (S (wsSendCalls c)) c)))
    /\ (forall c',
          flushMessageQueue ws_throws fuel c = Some c' ->
          messageQueue c' = []
          /\ Permutation (wire c') (wire c ++ messageQueue c)).
Proof.
  intros ws_throws fuel c Hc Hw Hq. split; [|split].
  - intros Ht Hl.
    destruct (flush_reliable ws_throws fuel c Hc Hw Ht Hl)
      as (c' & H1 & H2 & H3 & _).
    now exists c'.
  - intros m rest E Ht. apply flush_failed_send; auto.
    unfold queue_bounded in Hq. rewrite E in Hq. simpl in Hq. lia.
  - intros c' H. split.
    + now apply (flush_empties ws_throws fuel c).
    + now apply (flush_loses_nothing ws_throws fuel c).
Qed.

(** Three frames queued before connecting, as [onopen] has the client when
    it starts the flush. *)
Definition three_queued : client :=
  set_isConnected true
    (after first_throws (constructor None false 0)
       [Send (Other "a"); Send (Other "b"); Send (Other "c"); Connect]).

Lemma flush_order_witness :
  (exists c', flushMessageQueue reliable 3 three_queued = Some c'
              /\ wire c' = wire three_queued ++ messageQueue three_queued
              /\ messageQueue c' = [])
  /\ flushMessageQueue first_throws 4 three_queued
     = flushMessageQueue first_throws 3
         (set_messageQueue ([Other "b"; Other "c"] ++ [Other "a"])
            (set_wsSendCalls (S (wsSendCalls three_queued)) three_queued)).
Proof.
  split.
  - destruct (flush_order reliable 3 three_queued) as (H1 & _ & _).
    + reflexivity.
    + discriminate.
    + unfold queue_bounded. vm_compute. lia.
    + apply H1; [reflexivity|]. vm_compute. lia.
  - destruct (flush_order first_throws 3 three_queued) as (_ & H2 & _).
    + reflexivity.
    + discriminate.
    + unfold queue_bounded. vm_compute. lia.
    + apply H2; reflexivity.
Defined.

(** C6 as written fails: the first send of the flush throws, yet the flush
    goes on, and the frame that failed is sent after the two that were
    queued behind it. *)
Lemma flush_continues_and_reorders :
  exists c,
    run first_throws 1000 (constructor None false 0)
      [Send (Other "a"); Send (Other "b"); Send (Other "c"); Connect;
       OnOpen 5] = Some c
    /\ wire c = [Other "b"; Other "c"; Other "a"]
    /\ messageQueue c = []
    /\ wire c <> [Other "a"; Other "b"; Other "c"].
Proof.
  eexists. split; [vm_compute; reflexivity|].
  split; [vm_compute; reflexivity|].
  split; [vm_compute; reflexivity|].
  vm_compute. discriminate.
Qed.

(** ** C4: reconnecting with backoff *)

(** The delay of the attempt numbered [attempt] (from 0), as the
    specification writes it. *)
Definition backoff (baseDelay maxDelay : Z) (attempt : nat) : Z :=
  Z.min (baseDelay * 2 ^ Z.of_nat attempt) maxDelay.

Lemma backoff_monotone (baseDelay maxDelay : Z) (attempt : nat) :
  (0 <= baseDelay)%Z ->
  (backoff baseDelay maxDelay attempt
   <= backoff baseDelay maxDelay (S attempt))%Z.
Proof.
  intros Hb. unfold backoff.
  rewrite Nat2Z.inj_succ, Z.pow_succ_r by lia.
  assert (0 < 2 ^ Z.of_nat attempt)%Z by (apply Z.pow_pos_nonneg; lia).
  apply Z.min_le_compat_r. nia.
Qed.

Lemma attemptReconnect_schedules (c : client) (n : nat) :
  maxReconnectAttempts (cfg c) = Infinity ->
  shouldReconnect c = true -> reconnectAttempts c = Fin n ->
  attemptReconnect c
  = set_reconnectTimers
      (reconnectTimers c
       ++ [backoff (reconnectDelay (cfg c)) (maxReconnectDelay (cfg c)) n])
      (set_reconnectAttempts (Fin (S n)) c).
Proof.
  intros Hmax Hs Hn. unfold attemptReconnect, backoff.
  rewrite Hs, Hn, Hmax. fields. simpl jsnum_geb. cbv iota.
  replace (Z.of_nat (S n) - 1)%Z with (Z.of_nat n) by lia.
  reflexivity.
Qed.

Lemma attemptReconnect_disabled (c : client) :
  shouldReconnect c = false -> attemptReconnect c = c.
Proof. intros H. unfold attemptReconnect. now rewrite H. Qed.

(** [disconnect] leaves the client closed; it makes no socket, sends nothing
    and leaves the pending timeouts and a suspended [connect] as they are. *)
Lemma disconnect_closed (c : client) : closed (disconnect c).
Proof.
  unfold closed, disconnect. rewrite stopHeartbeat_eq. fields.
  destruct (ws c); fields; auto.
Qed.

Lemma disconnect_keeps (c : client) :
  sockets (disconnect c) = sockets c
  /\ wire (disconnect c) = wire c
  /\ reconnectTimers (disconnect c) = reconnectTimers c
  /\ awaiting (disconnect c) = awaiting c.
Proof.
  unfold disconnect. rewrite stopHeartbeat_eq. fields.
  destruct (ws c); fields; auto.
Qed.

Lemma onclose_after_disconnect (c : client) :
  reconnectTimers (onclose (disconnect c)) = reconnectTimers c.
Proof.
  destruct c as [? ? w ? ? ? ? ? ? hb ? ? ? ? ? ? ? ? ?].
  unfold onclose, disconnect, stopHeartbeat, attemptReconnect.
  destruct hb, w; reflexivity.
Qed.

(** The backoff of [attemptReconnect].  A reconnect attempt made when the
    counter stands at [n] is scheduled after [min(reconnectDelay * 2^n, maxReconnectDelay)] and moves the
    counter to [n + 1], for every [n]: there is no bound on the attempts.
    The delay never decreases from one attempt to the next and never
    exceeds the cap.  After [disconnect] no reconnect is scheduled, neither
    by [attemptReconnect] nor by the socket closing.  [onopen] sets the
    counter to zero, and no other event brings it to zero.  As long as
    [disconnect] has not been called, whatever else happened, the counter
    is finite and a socket that closes gets its reconnect scheduled. *)
Theorem reconnect_backoff :
  forall (ws_throws : nat -> bool) (c : client) (n : nat),
    maxReconnectAttempts (cfg c) = Infinity ->
    (0 <= reconnectDelay (cfg c))%Z ->
    (shouldReconnect c = true -> reconnectAttempts c = Fin n ->
     attemptReconnect c
     = set_reconnectTimers
         (reconnectTimers c
          ++ [backoff (reconnectDelay (cfg c)) (maxReconnectDelay (cfg c)) n])
         (set_reconnectAttempts (Fin (S n)) c))
    /\ (backoff (reconnectDelay (cfg c)) (maxReconnectDelay (cfg c)) n
        <= backoff (reconnectDelay (cfg c)) (maxReconnectDelay (cfg c)) (S n)
        /\ backoff (reconnectDelay (cfg c)) (maxReconnectDelay (cfg c)) n
           <= maxReconnectDelay (cfg c))%Z
    /\ (attemptReconnect (disconnect c) = disconnect c
        /\ reconnectTimers (disconnect c) = reconnectTimers c
        /\ reconnectTimers (onclose (disconnect c)) = reconnectTimers c)
    /\ (forall fuel now c',
          onopen ws_throws fuel now c = Some c' ->
          reconnectAttempts c' = Fin 0)
    /\ (forall fuel e c',
          step ws_throws fuel c e = Some c' ->
          reconnectAttempts c' = Fin 0 ->
          reconnectAttempts c = Fin 0 \/ exists now, e = OnOpen now)
    /\ (forall fuel token refresh t es c',
          forallb (fun e => negb (is_disconnect e)) es = true ->
          run ws_throws fuel (constructor token refresh t) es = Some c' ->
          exists k,
            reconnectAttempts c' = Fin k
            /\ reconnectTimers (onclose c')
               = reconnectTimers c' ++ [backoff 1000 60000 k]).
Proof.
  intros ws_throws c n Hmax Hbase.
  split; [|split; [|split; [|split; [|split]]]].
  - intros Hs Hn. now apply attemptReconnect_schedules.
  - split; [now apply backoff_monotone|]. unfold backoff. lia.
  - destruct (disconnect_closed c) as (Hs & _ & _).
    destruct (disconnect_keeps c) as (_ & _ & Ht & _).
    split; [now apply attemptReconnect_disabled|]. split; [exact Ht|].
    apply onclose_after_disconnect.
  - intros fuel now c' H.
    apply onopen_shape in H as (q & w & k & ->). reflexivity.
  - intros fuel e c'. now apply step_attempts_zero.
  - intros fuel token refresh t es c' Hes Hrun.
    assert (Hr : reconnecting_enabled c').
    { apply (run_reconnecting_enabled ws_throws fuel es
               (constructor token refresh t) c' Hes); [|exact Hrun].
      split; reflexivity. }
    destruct Hr as [Hs Hf].
    destruct (reconnectAttempts c') as [k|] eqn:Hk; [|discriminate].
    exists k. split; [reflexivity|].
    apply run_cfg in Hrun.
    unfold onclose. rewrite stopHeartbeat_eq. fields. rewrite Hs.
    rewrite attemptReconnect_schedules with (n := k); fields;
      rewrite ?Hrun; auto.
Qed.

(** A client whose connection dropped once: [onclose] has scheduled the
    first reconnect. *)
Definition dropped_once : client :=
  after reliable (constructor None false 0) [Connect; OnOpen 5; OnClose].

Lemma reconnect_backoff_witness :
  attemptReconnect dropped_once
  = set_reconnectTimers
      (reconnectTimers dropped_once ++ [backoff 1000 60000 1])
      (set_reconnectAttempts (Fin 2) dropped_once)
  /\ (backoff 1000 60000 1 <= backoff 1000 60000 2)%Z.
Proof.
  destruct (reconnect_backoff reliable dropped_once 1)
    as (H1 & (H2 & _) & _ & _ & _ & _).
  - reflexivity.
  - vm_compute. discriminate.
  - split; [apply H1; reflexivity|exact H2].
Defined.

(** The delay scheduled at the drop that follows [k] failed reconnects, for
    [k] from 0 to 7, with the constructor's settings. *)
Example consecutive_failures :
  map (fun k =>
         reconnectTimers
           (after reliable (constructor None false 0)
              ([Connect; OnOpen 5]
               ++ List.concat (repeat [OnClose; ReconnectTimer] k) ++ [OnClose])))
      [0; 1; 2; 3; 4; 5; 6; 7]
  = [[1000]; [2000]; [4000]; [8000]; [16000]; [32000]; [60000]; [60000]]%Z.
Proof. vm_compute. reflexivity. Qed.

(** C4, where the code breaks it: a [connect()] called after a
    [disconnect()] is not retried.  [disconnect] leaves the counter at
    [maxReconnectAttempts], which is [Infinity], and [connect] turns
    [shouldReconnect] back on but leaves the counter; when the new socket
    closes without opening, [onclose] calls [attemptReconnect], whose
    guard returns: no timer is scheduled and no socket is ever made again,
    although the caller has connected again.  The same failure of the very
    first [connect()] is retried: the close schedules a timer, the timer
    makes a second socket, and a second failure schedules the doubled
    delay. *)
Lemma no_retry_after_disconnect_then_connect :
  (exists c,
      run reliable 10 (constructor None false 0)
        [Connect; OnOpen 5; Disconnect; Connect; OnClose] = Some c
      /\ shouldReconnect c = true
      /\ reconnectAttempts c = Infinity
      /\ reconnectTimers c = []
      /\ sockets c = 2
      /\ exists c',
           run reliable 10 c [ReconnectTimer; OnClose; ReconnectTimer]
           = Some c'
           /\ sockets c' = 2 /\ reconnectTimers c' = [])
  /\ (exists c,
         run reliable 10 (constructor None false 0) [Connect; OnClose]
         = Some c
         /\ reconnectAttempts c = Fin 1
         /\ reconnectTimers c = [1000%Z]
         /\ sockets c = 1
         /\ exists c',
              run reliable 10 c [ReconnectTimer; OnClose] = Some c'
              /\ sockets c' = 2
              /\ reconnectAttempts c' = Fin 2
              /\ reconnectTimers c' = [2000%Z]).
Proof.
  split.
  - eexists. split; [vm_compute; reflexivity|].
    repeat (split; [vm_compute; reflexivity|]).
    eexists. split; [vm_compute; reflexivity|].
    split; vm_compute; reflexivity.
  - eexists. split; [vm_compute; reflexivity|].
    repeat (split; [vm_compute; reflexivity|]).
    eexists. split; [vm_compute; reflexivity|].
    repeat split; vm_compute; reflexivity.
Qed.

(** ** C5: the heartbeat *)

(** One tick of the heartbeat, read off [lastPongTime]: on a connected
    client, if that time is more than three heartbeat intervals old, the
    client closes its socket and sends nothing, and the close that follows
    schedules a reconnect; otherwise it sends a ping and closes nothing.  A
    pong or a ping from the server makes the time of its arrival the new
    reference. *)
Theorem heartbeat_liveness :
  forall (ws_throws : nat -> bool) (now : Z) (c : client) (id n : nat),
    heartbeatInterval c = true -> isConnected c = true ->
    ws c = Some id -> heartbeatIntervalMs (cfg c) = 30000%Z ->
    ((3 * heartbeatIntervalMs (cfg c) < now - lastPongTime c)%Z ->
     heartbeat_tick ws_throws now c
     = set_closeCalls (closeCalls c ++ [id]) c
     /\ (shouldReconnect c = true -> reconnectAttempts c = Fin n ->
         maxReconnectAttempts (cfg c) = Infinity ->
         isConnected (onclose (heartbeat_tick ws_throws now c)) = false
         /\ reconnectTimers (onclose (heartbeat_tick ws_throws now c))
            = reconnectTimers c
              ++ [backoff (reconnectDelay (cfg c))
                    (maxReconnectDelay (cfg c)) n]))
    /\ ((now - lastPongTime c <= 3 * heartbeatIntervalMs (cfg c))%Z ->
        heartbeat_tick ws_throws now c = send ws_throws Ping c
        /\ closeCalls (heartbeat_tick ws_throws now c) = closeCalls c
        /\ (ws_throws (wsSendCalls c) = false ->
            wire (heartbeat_tick ws_throws now c) = wire c ++ [Ping]))
    /\ (forall channel error t,
          lastPongTime
            (handleMessage ws_throws (Msg (TStr "pong") channel error) t c) = t
          /\ handleMessage ws_throws (Msg (TStr "ping") channel error) t c
             = set_lastPongTime t (send ws_throws Pong c)).
Proof.
  intros ws_throws now c id n Hh Hc Hw Hms. rewrite Hms.
  split; [|split].
  - intros Hlate.
    assert (Htick : heartbeat_tick ws_throws now c
                    = set_closeCalls (closeCalls c ++ [id]) c).
    { unfold heartbeat_tick, ws_close. rewrite Hh, Hc, Hw.
      destruct (Z.ltb_spec 90000 (now - lastPongTime c)); [reflexivity|lia]. }
    split; [exact Htick|].
    intros Hs Hn Hmax. rewrite Htick. unfold onclose, stopHeartbeat. fields.
    rewrite Hh. fields. rewrite Hs.
    rewrite attemptReconnect_schedules with (n := n); fields; auto.
  - intros Hok.
    assert (Htick : heartbeat_tick ws_throws now c = send ws_throws Ping c).
    { unfold heartbeat_tick. rewrite Hh, Hc.
      destruct (Z.ltb_spec 90000 (now - lastPongTime c)); [lia|reflexivity]. }
    rewrite Htick. split; [reflexivity|]. split; [apply send_closeCalls|].
    intros Ht. rewrite send_connected_ok; auto. congruence.
  - intros channel error t. split; reflexivity.
Qed.

(** A connected client whose heartbeat runs; the last pong was at time 5. *)
Definition open_client : client :=
  after reliable (constructor None false 0) [Connect; OnOpen 5].

Lemma heartbeat_liveness_witness :
  (heartbeat_tick reliable 90006 open_client
   = set_closeCalls (closeCalls open_client ++ [0]) open_client
   /\ reconnectTimers (onclose (heartbeat_tick reliable 90006 open_client))
      = reconnectTimers open_client ++ [backoff 1000 60000 0])
  /\ wire (heartbeat_tick reliable 90005 open_client)
     = wire open_client ++ [Ping].
Proof.
  assert (Hh : heartbeatInterval open_client = true) by reflexivity.
  assert (Hc : isConnected open_client = true) by reflexivity.
  assert (Hw : ws open_client = Some 0) by reflexivity.
  assert (Hms : heartbeatIntervalMs (cfg open_client) = 30000%Z)
    by reflexivity.
  split.
  - destruct (heartbeat_liveness reliable 90006 open_client 0 0 Hh Hc Hw Hms)
      as (H1 & _ & _).
    destruct H1 as (Ha & Hb); [vm_compute; reflexivity|].
    split; [exact Ha|]. apply Hb; reflexivity.
  - destruct (heartbeat_liveness reliable 90005 open_client 0 0 Hh Hc Hw Hms)
      as (_ & H2 & _).
    destruct H2 as (_ & _ & H3); [vm_compute; discriminate|].
    apply H3. reflexivity.
Defined.









(** ** C7: colon and slash in channel names *)

Lemma includes_colon_app (a b : string) :
  includes_colon (a ++ ":" ++ b)%string = true.
Proof.
  induction a as [|ch a IH]; simpl; [reflexivity|].
  now destruct (Ascii.eqb ch ":").
Qed.

Lemma replace_colon_app (a b : string) :
  includes_colon a = false ->
  replace_colon (a ++ ":" ++ b)%string = (a ++ "/" ++ b)%string.
Proof.
  induction a as [|ch a IH]; simpl; [reflexivity|].
  destruct (Ascii.eqb ch ":"); [discriminate|].
  intros H. f_equal. now apply IH.
Qed.

Lemma truthy_colon (a b : string) :
  truthy (Some (a ++ ":" ++ b)%string) = true.
Proof. now destruct a. Qed.

(** What routing to a list of callbacks records. *)
Definition deliver (cbs : list handler) (message : inbound) (c : client)
  : client :=
  if Nat.ltb 0 (List.length cbs)
  then set_delivered (delivered c ++ map (fun cb => (cb, message)) cbs) c
  else c.

(** C7 (as the code has it): when the channel name has no colon of its own
    and the colon form is not itself a key of the registry, an event for
    [channel:param] is routed to the callbacks registered under
    [channel/param], in the order they were registered, exactly as an event
    for [channel/param] is; and an update message carrying the colon form
    reaches them through [handleMessage]. *)
Theorem route_colon_as_slash :
  forall (ws_throws : nat -> bool) (message : inbound) (c : client)
         (channel param : string) (cbs : list handler) (now : Z),
    includes_colon channel = false ->
    map_get (channel ++ ":" ++ param)%string (subscriptions c) = None ->
    map_get (channel ++ "/" ++ param)%string (subscriptions c) = Some cbs ->
    _routeToCallbacks (channel ++ ":" ++ param)%string message c
    = deliver cbs message c
    /\ _routeToCallbacks (channel ++ ":" ++ param)%string message c
       = _routeToCallbacks (channel ++ "/" ++ param)%string message c
    /\ delivered (_routeToCallbacks (channel ++ ":" ++ param)%string message c)
       = delivered c ++ map (fun cb => (cb, message)) cbs
    /\ handleMessage ws_throws
         (Msg (TStr ("update/" ++ channel ++ ":" ++ param)%string)
              (Some (channel ++ ":" ++ param)%string) false) now c
       = deliver cbs
           (Msg (TStr ("update/" ++ channel ++ ":" ++ param)%string)
                (Some (channel ++ ":" ++ param)%string) false) c.
Proof.
  intros ws_throws message c channel param cbs now Hch Hcolon Hslash.
  assert (Hroute : forall msg,
             _routeToCallbacks (channel ++ ":" ++ param)%string msg c
             = deliver cbs msg c).
  { intros msg. unfold _routeToCallbacks, deliver.
    now rewrite Hcolon, includes_colon_app, replace_colon_app, Hslash. }
  split; [apply Hroute|]. split; [|split].
  - rewrite Hroute. unfold _routeToCallbacks, deliver. now rewrite Hslash.
  - rewrite Hroute. unfold deliver.
    destruct cbs; simpl; [now rewrite app_nil_r|reflexivity].
  - unfold handleMessage. simpl type_is. cbv iota. simpl orb. cbv iota.
    simpl prefix. cbv iota. rewrite truthy_colon.
    destruct (prefix _ _); apply Hroute.
Qed.

Lemma route_colon_as_slash_witness :
  _routeToCallbacks "order_book:1"
    (Msg (TStr "update/order_book:1") (Some "order_book:1") false)
    one_subscription
  = deliver [7]
      (Msg (TStr "update/order_book:1") (Some "order_book:1") false)
      one_subscription
  /\ handleMessage reliable
       (Msg (TStr "update/order_book:1") (Some "order_book:1") false) 6
       one_subscription
     = deliver [7]
         (Msg (TStr "update/order_book:1") (Some "order_book:1") false)
         one_subscription.
Proof.
  assert (H1 : includes_colon "order_book" = false) by reflexivity.
  assert (H2 : map_get ("order_book" ++ ":" ++ "1")%string
                 (subscriptions one_subscription) = None) by reflexivity.
  assert (H3 : map_get ("order_book" ++ "/" ++ "1")%string
                 (subscriptions one_subscription) = Some [7]) by reflexivity.
  destruct (route_colon_as_slash reliable
              (Msg (TStr "update/order_book:1") (Some "order_book:1") false)
              one_subscription "order_book" "1" [7] 6%Z H1 H2 H3)
    as (Ha & _ & _ & Hd).
  split; [exact Ha|exact Hd].
Defined.

(** A connected client with one handler on the one-minute candles of
    market 1, subscribed through [subscribeCandles]. *)
Definition candles_subscription : client :=
  subscribeCandles reliable (JNum 1) "1m" 7 open_client.

(** C7 as written fails: the channel [candles:1m] with parameter [1] is
    stored under [candles:1m/1]; an event for the slash form reaches the
    handler, an event for the colon form [candles:1m:1] reaches nobody. *)
Lemma candles_colon_form_is_dropped :
  subscriptions candles_subscription = [("candles:1m/1", [7])]
  /\ delivered
       (_routeToCallbacks "candles:1m/1" (Msg TNone (Some "candles:1m/1") false)
          candles_subscription)
     = [(7, Msg TNone (Some "candles:1m/1") false)]
  /\ delivered
       (_routeToCallbacks "candles:1m:1" (Msg TNone (Some "candles:1m:1") false)
          candles_subscription)
     = []
  /\ delivered
       (handleMessage reliable
          (Msg (TStr "update/candles:1m:1") (Some "candles:1m:1") false) 6
          candles_subscription)
     = [].
Proof. repeat split; vm_compute; reflexivity. Qed.

(** ** C1: what [onopen] sends *)

(** The auth frame of [onopen] (lines 53-58): one frame when the client
    holds a token that is truthy, none otherwise. *)
Definition auth_frames (c : client) : list frame :=
  match authToken c with
  | Some token => if truthy (Some token) then [Auth token] else []
  | None => []
  end.

(** The frames of [resubscribeAll]: one per key, without an [auth] field. *)
Definition resubscribe_frames (c : client) : list frame :=
  map (fun channelKey => Subscribe channelKey None)
      (map_keys (subscriptions c)).

(** How many of the frames are subscribe frames for the key. *)
Definition is_subscribe_for (k : string) (f : frame) : bool :=
  match f with
  | Subscribe channel _ => (channel =? k)%string
  | _ => false
  end.

Definition subscribe_count (k : string) (frames : list frame) : nat :=
  List.length (filter (is_subscribe_for k) frames).

Lemma subscribe_count_auth (k : string) (c : client) :
  subscribe_count k (auth_frames c) = 0.
Proof.
  unfold auth_frames. destruct (authToken c); [|reflexivity].
  now destruct (truthy _).
Qed.

Lemma subscribe_count_keys (k : string) (keys : list string) :
  NoDup keys ->
  subscribe_count k (map (fun key => Subscribe key None) keys)
  = if in_dec string_dec k keys then 1 else 0.
Proof.
  unfold subscribe_count. induction keys as [|k' keys IH]; intros Hnd.
  - reflexivity.
  - inversion Hnd as [|? ? Hn Hr]; subst. specialize (IH Hr).
    cbn [map filter is_subscribe_for].
    destruct (String.eqb_spec k' k) as [->|Hne].
    + cbn [List.length]. rewrite IH.
      destruct (in_dec string_dec k keys) as [Hin|_]; [contradiction|].
      destruct (in_dec string_dec k (k :: keys)) as [_|Hout];
        [reflexivity|exfalso; apply Hout; now left].
    + rewrite IH.
      destruct (in_dec string_dec k keys) as [Hin|Hout];
        destruct (in_dec string_dec k (k' :: keys)) as [Hin'|Hout'];
        try reflexivity.
      * exfalso. apply Hout'. now right.
      * destruct Hin' as [Heq|Hin']; [congruence|contradiction].
Qed.

Section OnOpen.

Variable ws_throws : nat -> bool.

(** A run of sends on a connected client whose socket takes every frame. *)
Definition sent (c : client) (frames : list frame) (c' : client) : Prop :=
  isConnected c' = true /\ ws c' = ws c
  /\ wire c' = wire c ++ frames
  /\ wsSendCalls c' = wsSendCalls c + List.length frames
  /\ messageQueue c' = messageQueue c
  /\ subscriptions c' = subscriptions c.

Lemma sent_nil (c : client) : isConnected c = true -> sent c [] c.
Proof.
  intros H. unfold sent. rewrite app_nil_r. simpl. repeat split; auto.
Qed.

Lemma sent_send (m : frame) (c : client) :
  isConnected c = true -> ws c <> None ->
  ws_throws (wsSendCalls c) = false ->
  sent c [m] (send ws_throws m c).
Proof.
  intros Hc Hw Ht. rewrite send_connected_ok by assumption.
  unfold sent. fields. simpl. repeat split; auto. lia.
Qed.

Lemma sent_trans (a b c : client) (f g : list frame) :
  sent a f b -> sent b g c -> sent a (f ++ g) c.
Proof.
  intros (H1 & H2 & H3 & H4 & H5 & H6) (K1 & K2 & K3 & K4 & K5 & K6).
  unfold sent. rewrite K3, H3, K4, H4, length_app, app_assoc.
  repeat split; try congruence. lia.
Qed.

Lemma sent_fold (f : string -> frame) (l : list string) :
  forall c,
    isConnected c = true -> ws c <> None ->
    (forall n, wsSendCalls c <= n -> ws_throws n = false) ->
    sent c (map f l)
      (fold_left (fun c' k => send ws_throws (f k) c') l c).
Proof.
  induction l as [|k l IH]; intros c Hc Hw Ht; simpl.
  - now apply sent_nil.
  - assert (H1 : sent c [f k] (send ws_throws (f k) c))
      by (apply sent_send; auto).
    change (f k :: map f l) with ([f k] ++ map f l).
    apply (sent_trans _ _ _ _ _ H1).
    destruct H1 as (K1 & K2 & _ & K4 & _).
    apply IH; [assumption|congruence|].
    intros n Hn. apply Ht. simpl in K4. lia.
Qed.

(** On a socket that takes every frame, [onopen] puts on the wire, in this
    order: the auth frame if the client holds a token, one subscribe frame
    per key of the registry, and the frames that were waiting in the
    queue. *)
Lemma onopen_wire (fuel : nat) (now : Z) (c : client) :
  ws c <> None ->
  (forall n, wsSendCalls c <= n -> ws_throws n = false) ->
  List.length (messageQueue c) <= fuel ->
  exists c', onopen ws_throws fuel now c = Some c'
             /\ wire c' = wire c ++ auth_frames c ++ resubscribe_frames c
                          ++ messageQueue c
             /\ subscriptions c' = subscriptions c.
Proof.
  intros Hw Ht Hl. unfold onopen.
  set (c1 := set_lastPongTime now
               (set_reconnectAttempts (Fin 0) (set_isConnected true c))).
  assert (Hc1 : isConnected c1 = true) by reflexivity.
  assert (H12 : sent c1 (auth_frames c)
                  match authToken c1 with
                  | Some token =>
                      if truthy (Some token)
                      then send ws_throws (Auth token) c1 else c1
                  | None => c1
                  end).
  { unfold auth_frames. change (authToken c1) with (authToken c).
    destruct (authToken c) as [token|]; [|now apply sent_nil].
    destruct (truthy (Some token)); [|now apply sent_nil].
    apply sent_send;
      [exact Hc1 | exact Hw | apply Ht; apply Nat.le_refl]. }
  set (c2 := match authToken c1 with
             | Some token =>
                 if truthy (Some token) then send ws_throws (Auth token) c1
                 else c1
             | None => c1
             end) in *.
  destruct H12 as (A1 & A2 & A3 & A4 & A5 & A6).
  change (ws c1) with (ws c) in A2.
  change (wire c1) with (wire c) in A3.
  change (wsSendCalls c1) with (wsSendCalls c) in A4.
  change (messageQueue c1) with (messageQueue c) in A5.
  change (subscriptions c1) with (subscriptions c) in A6.
  assert (H23 : sent c2 (resubscribe_frames c)
                  (if Nat.ltb 0 (List.length (subscriptions c2))
                   then resubscribeAll ws_throws c2 else c2)).
  { unfold resubscribe_frames. rewrite <- A6.
    destruct (subscriptions c2) as [|entry r] eqn:E.
    - simpl. now apply sent_nil.
    - cbn [List.length Nat.ltb Nat.leb]. unfold resubscribeAll. rewrite E.
      apply sent_fold; [assumption|congruence|].
      intros n Hn. apply Ht. lia. }
  set (c3 := if Nat.ltb 0 (List.length (subscriptions c2))
             then resubscribeAll ws_throws c2 else c2) in *.
  destruct H23 as (B1 & B2 & B3 & B4 & B5 & B6).
  destruct (flush_reliable ws_throws fuel c3) as (c4 & Hf & F1 & F2 & F3).
  - exact B1.
  - congruence.
  - intros n Hn. apply Ht. lia.
  - rewrite B5, A5. exact Hl.
  - rewrite Hf. eexists. split; [reflexivity|].
    apply flush_keeps in Hf. destruct Hf as (_ & G & _).
    unfold startHeartbeat. rewrite stopHeartbeat_eq. fields.
    split.
    + rewrite F1, B3, A3, B5, A5. now rewrite <- !app_assoc.
    + rewrite G, B6, A6. reflexivity.
Qed.

End OnOpen.

(** C1 (as the code has it): when the socket opens on a client whose queue
    is empty, the client sends one auth frame first if it holds a token of
    its own, whatever the subscriptions were registered with, and then one
    subscribe frame, without an auth field, for each key of the registry in
    the registry's order, however many handlers the key has; nothing else
    is sent, and the registry is unchanged. *)
Theorem onopen_resubscribes :
  forall (ws_throws : nat -> bool) (fuel : nat) (now : Z) (c : client),
    ws c <> None ->
    (forall n, wsSendCalls c <= n -> ws_throws n = false) ->
    registry_ok (subscriptions c) ->
    messageQueue c = [] ->
    exists c',
      onopen ws_throws fuel now c = Some c'
      /\ wire c' = wire c ++ auth_frames c ++ resubscribe_frames c
      /\ subscriptions c' = subscriptions c
      /\ (forall k cbs,
            map_get k (subscriptions c) = Some cbs ->
            subscribe_count k (auth_frames c ++ resubscribe_frames c) = 1)
      /\ (forall k,
            map_get k (subscriptions c) = None ->
            subscribe_count k (auth_frames c ++ resubscribe_frames c) = 0).
Proof.
  intros ws_throws fuel now c Hw Ht Hok Hq.
  destruct (onopen_wire ws_throws fuel now c Hw Ht) as (c' & Ho & Hwire & Hs).
  { rewrite Hq. simpl. lia. }
  exists c'. rewrite Hq, !app_nil_r in Hwire.
  assert (Hcount : forall k,
             subscribe_count k (auth_frames c ++ resubscribe_frames c)
             = if in_dec string_dec k (map_keys (subscriptions c))
               then 1 else 0).
  { intros k. unfold subscribe_count. rewrite filter_app, length_app.
    fold (subscribe_count k (auth_frames c)).
    fold (subscribe_count k (resubscribe_frames c)).
    rewrite subscribe_count_auth. unfold resubscribe_frames.
    now rewrite subscribe_count_keys. }
  repeat split; auto.
  - intros k cbs Hk. rewrite Hcount. apply map_get_In in Hk.
    destruct (in_dec _ _ _); [reflexivity|contradiction].
  - intros k Hk. rewrite Hcount. apply map_get_None in Hk.
    destruct (in_dec _ _ _); [contradiction|reflexivity].
Qed.

(** A client with a token whose connection dropped and whose reconnect
    timer has fired: two keys are registered, the first with two
    handlers, and the new socket is about to open. *)
Definition about_to_reopen : client :=
  after reliable (constructor (Some "t") false 0)
    [Connect; OnOpen 5;
     Sub "order_book" (JNum 1) 7 None; Sub "order_book" (JNum 1) 8 None;
     Sub "trade" (JNum 1) 9 None;
     OnClose; ReconnectTimer].

Lemma onopen_resubscribes_witness :
  exists c',
    onopen reliable 0 9 about_to_reopen = Some c'
    /\ wire c' = wire about_to_reopen
                 ++ [Auth "t"; Subscribe "order_book/1" None;
                     Subscribe "trade/1" None].
Proof.
  assert (H1 : ws about_to_reopen <> None) by (vm_compute; discriminate).
  assert (H2 : forall n, wsSendCalls about_to_reopen <= n ->
                         reliable n = false) by reflexivity.
  assert (H3 : registry_ok (subscriptions about_to_reopen)).
  { unfold registry_ok.
    change (map_keys (subscriptions about_to_reopen))
      with ["order_book/1"; "trade/1"].
    repeat constructor; simpl; intuition discriminate. }
  assert (H4 : messageQueue about_to_reopen = []) by reflexivity.
  destruct (onopen_resubscribes reliable 0 9%Z about_to_reopen H1 H2 H3 H4)
    as (c' & Ho & Hwire & _).
  exists c'. split; [exact Ho|exact Hwire].
Defined.

(** C1 as written fails twice.  A subscription made before the first
    connect is sent twice when the socket opens, once by [resubscribeAll]
    and once from the queue.  And a subscription registered with an auth
    token on a client that holds no token of its own is resubscribed after
    a reconnect by a bare subscribe frame: no auth frame precedes it and it
    carries no auth field. *)
Lemma onopen_duplicate_and_no_auth :
  (exists c,
      run reliable 10 (constructor None false 0)
        [Sub "order_book" (JNum 1) 7 None; Connect; OnOpen 5] = Some c
      /\ subscriptions c = [("order_book/1", [7])]
      /\ wire c = [Subscribe "order_book/1" None; Subscribe "order_book/1" None]
      /\ subscribe_count "order_book/1" (wire c) = 2)
  /\ (exists c c',
         run reliable 10 (constructor None false 0)
           [Connect; OnOpen 5;
            Sub "account_all_orders" (JNum 42) 7 (Some "tok");
            OnClose; ReconnectTimer] = Some c
         /\ wire c = [Subscribe "account_all_orders/42" (Some "tok")]
         /\ onopen reliable 10 9 c = Some c'
         /\ wire c' = wire c ++ [Subscribe "account_all_orders/42" None]).
Proof.
  split.
  - eexists. split; [vm_compute; reflexivity|].
    repeat split; vm_compute; reflexivity.
  - eexists. eexists. split; [vm_compute; reflexivity|].
    split; [vm_compute; reflexivity|].
    split; vm_compute; reflexivity.
Qed.

(** ** C9: after [disconnect] *)

(** C9 (as the code has it): [disconnect] clears the heartbeat interval and
    turns [shouldReconnect] off.  It does not cancel a pending reconnect
    timeout, which stays pending; but until [connect()] is called again,
    whatever timers fire, sockets close, messages arrive or methods other
    than [connect] are called, the client makes no new socket, puts
    nothing on the wire, and stays disconnected with no heartbeat. *)
Theorem disconnect_stays_closed :
  forall (ws_throws : nat -> bool) (fuel : nat) (c : client)
         (es : list event),
    Forall (fun e => quiet e = true) es ->
    heartbeatInterval (disconnect c) = false
    /\ shouldReconnect (disconnect c) = false
    /\ reconnectTimers (disconnect c) = reconnectTimers c
    /\ exists c',
         run ws_throws fuel (disconnect c) es = Some c'
         /\ isConnected c' = false
         /\ shouldReconnect c' = false
         /\ heartbeatInterval c' = false
         /\ sockets c' = sockets c
         /\ wire c' = wire c.
Proof.
  intros ws_throws fuel c es Hq.
  pose proof (disconnect_closed c) as Hcl.
  destruct (disconnect_keeps c) as (Ks & Kw & Kt & _).
  destruct Hcl as (Hs & Hc & Hh).
  split; [exact Hh|]. split; [exact Hs|]. split; [exact Kt|].
  destruct (run_closed ws_throws fuel es (disconnect c) Hq)
    as (c' & Hrun & (Hs' & Hc' & Hh') & Hso & Hwi & _).
  { repeat split; assumption. }
  exists c'. repeat split; try assumption; congruence.
Qed.

Lemma disconnect_stays_closed_witness :
  reconnectTimers (disconnect dropped_once) = reconnectTimers dropped_once
  /\ exists c',
       run reliable 10 (disconnect dropped_once)
         [ReconnectTimer; OnClose; HeartbeatTimer 100000;
          Sub "order_book" (JNum 1) 7 None; OnMessage (Msg (TStr "ping") None false) 7]
       = Some c'
       /\ isConnected c' = false
       /\ sockets c' = sockets dropped_once
       /\ wire c' = wire dropped_once.
Proof.
  assert (Hq : Forall (fun e => quiet e = true)
                 [ReconnectTimer; OnClose; HeartbeatTimer 100000;
                  Sub "order_book" (JNum 1) 7 None;
                  OnMessage (Msg (TStr "ping") None false) 7])
    by (repeat constructor).
  destruct (disconnect_stays_closed reliable 10 dropped_once _ Hq)
    as (_ & _ & Ht & c' & Hrun & Hc & _ & _ & Hs & Hw).
  split; [exact Ht|]. exists c'. repeat split; assumption.
Defined.

(** A client with a refresh callback whose connection dropped, and whose
    reconnect timer has fired: [connect] is waiting for the fresh token. *)
Definition awaiting_token : client :=
  after reliable (constructor (Some "t") true 0)
    [Connect; OnOpen 5; OnClose; ReconnectTimer].

(** C9 as written fails twice.  [disconnect] leaves the pending reconnect
    timeout pending.  And a [connect] that the timer started before the
    [disconnect], and that is waiting for the refresh callback, goes on when
    the token arrives: it makes a second socket, which opens, and the client
    is connected again without [connect()] having been called since the
    [disconnect]. *)
Lemma disconnect_leaves_timer_and_suspended_connect :
  reconnectTimers (disconnect dropped_once) = [1000%Z]
  /\ reconnectTimers (disconnect dropped_once) <> []
  /\ awaiting awaiting_token = 1
  /\ exists c',
       run reliable 10 awaiting_token
         [Disconnect; RefreshSettled (Some (Some "t2")); OnOpen 9] = Some c'
       /\ sockets c' = 2
       /\ isConnected c' = true
       /\ heartbeatInterval c' = true
       /\ wire c' = [Auth "t"; Auth "t2"].
Proof.
  split; [vm_compute; reflexivity|].
  split; [vm_compute; discriminate|].
  split; [vm_compute; reflexivity|].
  eexists. split; [vm_compute; reflexivity|].
  repeat split; vm_compute; reflexivity.
Qed.

(** * Further properties of the client *)

(** ** The registry under [subscribe] and [unsubscribe] *)

Lemma map_get_delete_same (k : string) (m : registry) :
  registry_ok m -> map_get k (map_delete k m) = None.
Proof.
  unfold registry_ok. induction m as [|[k' v'] r IH]; simpl; [reflexivity|].
  intros H. inversion H as [|? ? Hn Hr]; subst.
  destruct (k' =? k)%string eqn:E.
  - apply String.eqb_eq in E. subst k'.
    destruct (map_get k r) eqn:G; [|reflexivity].
    apply map_get_In in G. contradiction.
  - simpl. rewrite E. now apply IH.
Qed.

Lemma map_get_delete_other (k k0 : string) (m : registry) :
  k0 <> k -> map_get k0 (map_delete k m) = map_get k0 m.
Proof.
  intros Hne. induction m as [|[k' v'] r IH]; simpl; [reflexivity|].
  destruct (k' =? k)%string eqn:E.
  - apply String.eqb_eq in E. subst k'.
    destruct (k =? k0)%string eqn:E0; [|reflexivity].
    apply String.eqb_eq in E0. congruence.
  - simpl. destruct (k' =? k0)%string; [reflexivity|exact IH].
Qed.

Lemma map_delete_absent (k : string) (m : registry) :
  map_get k m = None -> map_delete k m = m.
Proof.
  induction m as [|[k' v'] r IH]; simpl; [reflexivity|].
  destruct (k' =? k)%string; [discriminate|].
  intros H. now rewrite IH.
Qed.

Lemma map_set_absent (k : string) (v : list handler) (m : registry) :
  map_get k m = None -> map_set k v m = m ++ [(k, v)].
Proof.
  induction m as [|[k' v'] r IH]; simpl; [reflexivity|].
  destruct (k' =? k)%string; [discriminate|].
  intros H. now rewrite IH.
Qed.

Lemma map_delete_set_absent (k : string) (v : list handler) (m : registry) :
  map_get k m = None -> map_delete k (map_set k v m) = m.
Proof.
  induction m as [|[k' v'] r IH]; simpl.
  - now rewrite String.eqb_refl.
  - destruct (k' =? k)%string eqn:E; [discriminate|].
    intros H. simpl. now rewrite E, IH.
Qed.

(** X1: [unsubscribe] drops the key with all its handlers and leaves every
    other entry as it was.  It does not look whether the key was there: for
    a key that was never subscribed the registry is unchanged, and the
    unsubscribe frame is handed to [send] all the same, going on the wire
    of a connected client. *)
Theorem unsubscribe_removes_key :
  forall (ws_throws : nat -> bool) (channel : string) (marketId : jsval)
         (c : client),
    registry_ok (subscriptions c) ->
    map_get (channel_key channel marketId)
      (subscriptions (unsubscribe ws_throws channel marketId c)) = None
    /\ (forall k, k <> channel_key channel marketId ->
          map_get k (subscriptions (unsubscribe ws_throws channel marketId c))
          = map_get k (subscriptions c))
    /\ (map_get (channel_key channel marketId) (subscriptions c) = None ->
        subscriptions (unsubscribe ws_throws channel marketId c)
        = subscriptions c)
    /\ (isConnected c = true -> ws c <> None ->
        ws_throws (wsSendCalls c) = false ->
        wire (unsubscribe ws_throws channel marketId c)
        = wire c ++ [Unsubscribe (channel_key channel marketId)])
    /\ (isConnected c = false ->
        List.length (messageQueue c) < maxQueueSize (cfg c) ->
        messageQueue (unsubscribe ws_throws channel marketId c)
        = messageQueue c ++ [Unsubscribe (channel_key channel marketId)]).
Proof.
  intros ws_throws channel marketId c Hok.
  unfold unsubscribe. fold (channel_key channel marketId).
  rewrite send_subscriptions. fields.
  split; [now apply map_get_delete_same|].
  split; [intros k Hk; now apply map_get_delete_other|].
  split; [apply map_delete_absent|].
  split.
  - intros Hc Hw Ht. rewrite send_connected_ok; auto.
  - intros Hc Hl. rewrite send_disconnected by exact Hc.
    fields. apply Nat.ltb_lt in Hl. now rewrite Hl.
Qed.

Lemma unsubscribe_removes_key_witness :
  map_get (channel_key "order_book" (JNum 1))
    (subscriptions (unsubscribe reliable "order_book" (JNum 1) one_subscription))
  = None
  /\ wire (unsubscribe reliable "trade" (JNum 1) one_subscription)
     = wire one_subscription ++ [Unsubscribe (channel_key "trade" (JNum 1))].
Proof.
  assert (Hok : registry_ok (subscriptions one_subscription)).
  { unfold registry_ok.
    change (map_keys (subscriptions one_subscription)) with ["order_book/1"].
    repeat constructor. simpl. tauto. }
  split.
  - destruct (unsubscribe_removes_key reliable "order_book" (JNum 1)
                one_subscription Hok) as (H & _).
    exact H.
  - destruct (unsubscribe_removes_key reliable "trade" (JNum 1)
                one_subscription Hok) as (_ & _ & _ & H & _).
    apply H; [reflexivity|discriminate|reflexivity].
Defined.

(** X2: a [subscribe] for a key that is not in the registry adds the key at
    the end of the registry with the callback as its only handler, and
    leaves the other entries alone. *)
Theorem subscribe_new_key :
  forall (ws_throws : nat -> bool) (channel : string) (marketId : jsval)
         (callback : handler) (auth : option string) (c : client),
    invalid_marketId marketId = false ->
    map_get (channel_key channel marketId) (subscriptions c) = None ->
    subscriptions (subscribe ws_throws channel marketId callback auth c)
    = subscriptions c ++ [(channel_key channel marketId, [callback])]
    /\ map_get (channel_key channel marketId)
         (subscriptions (subscribe ws_throws channel marketId callback auth c))
       = Some [callback]
    /\ (forall k, k <> channel_key channel marketId ->
          map_get k
            (subscriptions (subscribe ws_throws channel marketId callback auth c))
          = map_get k (subscriptions c)).
Proof.
  intros ws_throws channel marketId callback auth c Hv Hg.
  assert (Hs : subscriptions
                 (subscribe ws_throws channel marketId callback auth c)
               = map_set (channel_key channel marketId) [callback]
                   (subscriptions c)).
  { unfold subscribe. rewrite Hv. cbv zeta.
    fold (channel_key channel marketId).
    now rewrite send_subscriptions, store_callback_subscriptions, Hg. }
  rewrite Hs. split; [now apply map_set_absent|].
  split; [apply map_get_set_same|].
  intros k Hk. now apply map_get_set_other.
Qed.

Lemma subscribe_new_key_witness :
  subscriptions (subscribe reliable "trade" (JNum 1) 9 None one_subscription)
  = subscriptions one_subscription ++ [(channel_key "trade" (JNum 1), [9])].
Proof.
  destruct (subscribe_new_key reliable "trade" (JNum 1) 9 None
              one_subscription) as (H & _); [reflexivity|reflexivity|].
  exact H.
Defined.

(** X3: subscribing to a key that was not registered and then
    unsubscribing from it gives back the registry as it was, whatever
    number of handlers the other keys hold. *)
Theorem subscribe_unsubscribe_restores :
  forall (ws_throws : nat -> bool) (channel : string) (marketId : jsval)
         (callback : handler) (auth : option string) (c : client),
    invalid_marketId marketId = false ->
    map_get (channel_key channel marketId) (subscriptions c) = None ->
    subscriptions
      (unsubscribe ws_throws channel marketId
         (subscribe ws_throws channel marketId callback auth c))
    = subscriptions c.
Proof.
  intros ws_throws channel marketId callback auth c Hv Hg.
  unfold unsubscribe. fold (channel_key channel marketId).
  rewrite send_subscriptions. fields.
  unfold subscribe. rewrite Hv. cbv zeta.
  fold (channel_key channel marketId).
  rewrite send_subscriptions, store_callback_subscriptions, Hg.
  now apply map_delete_set_absent.
Qed.

Lemma subscribe_unsubscribe_restores_witness :
  subscriptions
    (unsubscribe reliable "trade" (JNum 1)
       (subscribe reliable "trade" (JNum 1) 9 None one_subscription))
  = subscriptions one_subscription.
Proof.
  apply (subscribe_unsubscribe_restores reliable "trade" (JNum 1) 9 None
           one_subscription); reflexivity.
Defined.

(** ** Routing inbound messages *)

(** A message for a channel that is a key of the registry is delivered to
    the handlers of that key, the exact key being used even when the
    channel contains a colon; apart from the deliveries the client is left
    as it was. *)
Lemma route_exact_key (serverChannel : string) (message : inbound)
  (c : client) (cbs : list handler) :
  map_get serverChannel (subscriptions c) = Some cbs ->
  _routeToCallbacks serverChannel message c = deliver cbs message c
  /\ delivered (_routeToCallbacks serverChannel message c)
     = delivered c ++ map (fun cb => (cb, message)) cbs
  /\ set_delivered (delivered c)
       (_routeToCallbacks serverChannel message c)
     = set_delivered (delivered c) c.
Proof.
  intros Hg.
  assert (H : _routeToCallbacks serverChannel message c
              = deliver cbs message c)
    by (unfold _routeToCallbacks, deliver; now rewrite Hg).
  rewrite H. unfold deliver.
  destruct cbs as [|cb cbs]; cbn [List.length Nat.ltb Nat.leb].
  - rewrite app_nil_r. repeat split; auto.
  - fields. repeat split; auto.
Qed.

(** Several handlers subscribed to one key, one call each. *)
Definition subscribe_all (ws_throws : nat -> bool) (channel : string)
  (marketId : jsval) (auth : option string) (callbacks : list handler)
  (c : client) : client :=
  fold_left (fun c' cb => subscribe ws_throws channel marketId cb auth c')
            callbacks c.

Lemma subscribe_subscriptions (ws_throws : nat -> bool) (channel : string)
  (marketId : jsval) (callback : handler) (auth : option string)
  (c : client) :
  invalid_marketId marketId = false ->
  subscriptions (subscribe ws_throws channel marketId callback auth c)
  = map_set (channel_key channel marketId)
      (match map_get (channel_key channel marketId) (subscriptions c) with
       | Some cbs => cbs ++ [callback]
       | None => [callback]
       end) (subscriptions c)
  /\ delivered (subscribe ws_throws channel marketId callback auth c)
     = delivered c.
Proof.
  intros Hv. unfold subscribe. rewrite Hv. cbv zeta.
  fold (channel_key channel marketId).
  rewrite send_subscriptions, store_callback_subscriptions.
  split; [reflexivity|].
  destruct (send_transport_only ws_throws
              (Subscribe (channel_key channel marketId)
                 (if truthy auth then auth else None))
              (store_callback (channel_key channel marketId) callback c))
    as (q & w & n & ->).
  destruct (store_callback_shape (channel_key channel marketId) callback c)
    as (r & ->).
  reflexivity.
Qed.

Lemma subscribe_all_appends (ws_throws : nat -> bool) (channel : string)
  (marketId : jsval) (auth : option string) (callbacks : list handler) :
  invalid_marketId marketId = false ->
  forall (c : client) (old : list handler),
    map_get (channel_key channel marketId) (subscriptions c) = Some old ->
    map_get (channel_key channel marketId)
      (subscriptions (subscribe_all ws_throws channel marketId auth callbacks c))
    = Some (old ++ callbacks)
    /\ delivered (subscribe_all ws_throws channel marketId auth callbacks c)
       = delivered c.
Proof.
  intros Hv. induction callbacks as [|cb cbs IH]; intros c old Hg.
  - unfold subscribe_all. simpl. now rewrite app_nil_r.
  - unfold subscribe_all. simpl.
    fold (subscribe_all ws_throws channel marketId auth cbs
            (subscribe ws_throws channel marketId cb auth c)).
    destruct (subscribe_subscriptions ws_throws channel marketId cb auth c Hv)
      as [Hs Hd].
    rewrite Hg in Hs.
    destruct (IH (subscribe ws_throws channel marketId cb auth c)
                (old ++ [cb])) as [H1 H2].
    + rewrite Hs. apply map_get_set_same.
    + rewrite H1, H2, Hd, <- app_assoc. split; reflexivity.
Qed.

(** X4: handlers subscribed to one key, in however many [subscribe] calls,
    all receive a message for that key, each once and in the order of
    their subscriptions.  For a key that was not registered before, the
    message reaches exactly the handlers subscribed. *)
Theorem fan_out_in_subscription_order :
  forall (ws_throws : nat -> bool) (channel : string) (marketId : jsval)
         (auth : option string) (first : handler) (others : list handler)
         (message : inbound) (c : client),
    invalid_marketId marketId = false ->
    map_get (channel_key channel marketId) (subscriptions c) = None ->
    delivered
      (_routeToCallbacks (channel_key channel marketId) message
         (subscribe_all ws_throws channel marketId auth (first :: others) c))
    = delivered c ++ map (fun cb => (cb, message)) (first :: others).
Proof.
  intros ws_throws channel marketId auth first others message c Hv Hg.
  unfold subscribe_all. cbn [fold_left].
  fold (subscribe_all ws_throws channel marketId auth others
          (subscribe ws_throws channel marketId first auth c)).
  destruct (subscribe_subscriptions ws_throws channel marketId first auth c Hv)
    as [Hs Hd].
  rewrite Hg in Hs.
  destruct (subscribe_all_appends ws_throws channel marketId auth others Hv
              (subscribe ws_throws channel marketId first auth c) [first])
    as [H1 H2]; [rewrite Hs; apply map_get_set_same|].
  destruct (route_exact_key (channel_key channel marketId) message _ _ H1)
    as (_ & Hdel & _).
  rewrite Hdel, H2, Hd. reflexivity.
Qed.

Lemma fan_out_in_subscription_order_witness :
  delivered
    (_routeToCallbacks (channel_key "trade" (JNum 1))
       (Msg TNone (Some "trade/1") false)
       (subscribe_all reliable "trade" (JNum 1) None [4; 5; 6] open_client))
  = delivered open_client
    ++ map (fun cb => (cb, Msg TNone (Some "trade/1") false)) [4; 5; 6].
Proof.
  apply (fan_out_in_subscription_order reliable "trade" (JNum 1) None 4
           [5; 6] (Msg TNone (Some "trade/1") false) open_client);
    reflexivity.
Defined.

(** X5: a message for a channel that matches no key, neither as it is nor
    with its first colon turned into a slash, is dropped: the client is
    left exactly as it was, through [_routeToCallbacks] and through
    [handleMessage] for an update, a subscription confirmation or a message
    without a type. *)
Theorem route_unknown_channel :
  forall (ws_throws : nat -> bool) (serverChannel rest : string)
         (error : bool) (now : Z) (c : client),
    map_get serverChannel (subscriptions c) = None ->
    map_get (replace_colon serverChannel) (subscriptions c) = None ->
    (forall message, _routeToCallbacks serverChannel message c = c)
    /\ handleMessage ws_throws
         (Msg (TStr ("update/" ++ rest)%string) (Some serverChannel) error)
         now c = c
    /\ handleMessage ws_throws
         (Msg (TStr ("subscribed/" ++ rest)%string) (Some serverChannel) error)
         now c = c
    /\ handleMessage ws_throws (Msg TNone (Some serverChannel) error) now c
       = c.
Proof.
  intros ws_throws serverChannel rest error now c H1 H2.
  assert (Hr : forall message, _routeToCallbacks serverChannel message c = c).
  { intros message. unfold _routeToCallbacks. rewrite H1, H2.
    now destruct (includes_colon serverChannel). }
  split; [exact Hr|].
  unfold handleMessage. simpl type_is. cbv iota. simpl orb. cbv iota.
  simpl prefix. cbv iota.
  repeat split;
    repeat match goal with
      | |- context [if ?b then _ else _] => destruct b
      end; auto.
Qed.

Lemma route_unknown_channel_witness :
  handleMessage reliable
    (Msg (TStr ("update/" ++ "trade:1")%string) (Some "trade:1") false) 6
    one_subscription
  = one_subscription.
Proof.
  destruct (route_unknown_channel reliable "trade:1" "trade:1" false 6%Z
              one_subscription) as (_ & H & _); [reflexivity|reflexivity|].
  exact H.
Defined.

(** X6: no inbound message, whatever it holds, touches the registry, the
    connection flags, the attempt counter, the token, the sockets or the
    timers; text that does not parse, a value that is not an object and a
    message whose type is not a string leave the client exactly as it
    was. *)
Theorem handleMessage_keeps_connection :
  forall (ws_throws : nat -> bool) (data : inbound) (now : Z) (c : client),
    subscriptions (handleMessage ws_throws data now c) = subscriptions c
    /\ isConnected (handleMessage ws_throws data now c) = isConnected c
    /\ shouldReconnect (handleMessage ws_throws data now c)
       = shouldReconnect c
    /\ reconnectAttempts (handleMessage ws_throws data now c)
       = reconnectAttempts c
    /\ authToken (handleMessage ws_throws data now c) = authToken c
    /\ ws (handleMessage ws_throws data now c) = ws c
    /\ sockets (handleMessage ws_throws data now c) = sockets c
    /\ closeCalls (handleMessage ws_throws data now c) = closeCalls c
    /\ reconnectTimers (handleMessage ws_throws data now c)
       = reconnectTimers c
    /\ heartbeatInterval (handleMessage ws_throws data now c)
       = heartbeatInterval c
    /\ handleMessage ws_throws Unparseable now c = c
    /\ handleMessage ws_throws NotObject now c = c
    /\ (forall channel error,
          handleMessage ws_throws (Msg TOther channel error) now c = c).
Proof.
  intros ws_throws data now c.
  repeat split; try (unfold_methods; send_shapes; branches; reflexivity).
Qed.

(** X7: a message that carries an [error] and whose type is missing is
    never passed to a handler, also when its channel has handlers: the
    client is left as it was.  The same holds for an error message of any
    other type, except the types that start with [subscribed/] or
    [update/] and the liveness and session types. *)
Theorem error_message_not_delivered :
  forall (ws_throws : nat -> bool) (s : string) (channel : option string)
         (now : Z) (c : client),
    handleMessage ws_throws (Msg TNone channel true) now c = c
    /\ (existsb (String.eqb s)
          ["ping"; "pong"; "connected"; "auth_success"; "authenticated";
           "auth_failed"; "auth_error"] = false ->
        prefix "subscribed/" s = false -> prefix "update/" s = false ->
        handleMessage ws_throws (Msg (TStr s) channel true) now c = c).
Proof.
  intros ws_throws s channel now c. split; [reflexivity|].
  intros Hk Hs Hu. unfold handleMessage, type_is.
  cbn [existsb] in Hk. rewrite !orb_false_r in Hk.
  repeat (apply orb_false_iff in Hk; destruct Hk as [?E Hk]).
  rewrite (String.eqb_sym s "ping") in E.
  rewrite (String.eqb_sym s "pong") in E0.
  rewrite (String.eqb_sym s "connected") in E1.
  rewrite (String.eqb_sym s "auth_success") in E2.
  rewrite (String.eqb_sym s "authenticated") in E3.
  rewrite (String.eqb_sym s "auth_failed") in E4.
  rewrite (String.eqb_sym s "auth_error") in Hk.
  rewrite (String.eqb_sym s "ping"), (String.eqb_sym s "pong"),
    (String.eqb_sym s "connected"), (String.eqb_sym s "auth_success"),
    (String.eqb_sym s "authenticated"), (String.eqb_sym s "auth_failed"),
    (String.eqb_sym s "auth_error").
  rewrite E, E0, E1, E2, E3, E4, Hk, Hs, Hu. reflexivity.
Qed.

Lemma error_message_not_delivered_witness :
  handleMessage reliable (Msg (TStr "error") (Some "order_book/1") true) 6
    one_subscription
  = one_subscription.
Proof.
  destruct (error_message_not_delivered reliable "error"
              (Some "order_book/1") 6%Z one_subscription) as (_ & H).
  apply H; reflexivity.
Defined.

(** ** Disconnecting, connecting again, reconnecting *)

Lemma connect_fields (c : client) :
  subscriptions (connect c) = subscriptions c
  /\ messageQueue (connect c) = messageQueue c
  /\ wire (connect c) = wire c
  /\ wsSendCalls (connect c) = wsSendCalls c
  /\ authToken (connect c) = authToken c
  /\ cfg (connect c) = cfg c
  /\ reconnectAttempts (connect c) = reconnectAttempts c
  /\ reconnectTimers (connect c) = reconnectTimers c
  /\ shouldReconnect (connect c) = true.
Proof.
  unfold connect, new_socket. fields.
  destruct (jsnum_pos (reconnectAttempts c) && authRefreshCallback (cfg c));
    fields; repeat split.
Qed.

Lemma connect_socket (c : client) :
  jsnum_pos (reconnectAttempts c) && authRefreshCallback (cfg c) = false ->
  ws (connect c) = Some (sockets c).
Proof.
  intros H. unfold connect, new_socket. fields. rewrite H. reflexivity.
Qed.

Lemma disconnect_fields (c : client) :
  subscriptions (disconnect c) = []
  /\ messageQueue (disconnect c) = []
  /\ wsSendCalls (disconnect c) = wsSendCalls c
  /\ authToken (disconnect c) = authToken c
  /\ cfg (disconnect c) = cfg c
  /\ reconnectAttempts (disconnect c) = maxReconnectAttempts (cfg c).
Proof.
  unfold disconnect. rewrite stopHeartbeat_eq. fields.
  destruct (ws c); fields; repeat split.
Qed.

(** X8: subscriptions and queued frames do not survive [disconnect].  For
    a client without a refresh callback, [disconnect] followed by
    [connect] and the opening of the new socket puts on the wire the auth
    frame of the client's token, if it has one, and nothing else: no
    subscribe frame is sent, and the registry and the queue are empty. *)
Theorem disconnect_forgets_subscriptions :
  forall (ws_throws : nat -> bool) (fuel : nat) (now : Z) (c : client),
    authRefreshCallback (cfg c) = false ->
    (forall n, wsSendCalls c <= n -> ws_throws n = false) ->
    exists c',
      run ws_throws fuel c [Disconnect; Connect; OnOpen now] = Some c'
      /\ wire c' = wire c ++ auth_frames c
      /\ subscriptions c' = []
      /\ messageQueue c' = []
      /\ isConnected c' = true.
Proof.
  intros ws_throws fuel now c Hcb Ht. cbn [run step].
  destruct (disconnect_fields c) as (D1 & D2 & D3 & D4 & D5 & D6).
  destruct (disconnect_keeps c) as (_ & Dw & _ & _).
  destruct (connect_fields (disconnect c))
    as (C1 & C2 & C3 & C4 & C5 & C6 & _).
  assert (Hws : ws (connect (disconnect c)) <> None).
  { rewrite connect_socket; [discriminate|].
    rewrite D5, Hcb. apply andb_false_r. }
  destruct (onopen_wire ws_throws fuel now (connect (disconnect c)) Hws)
    as (c' & Ho & Hwire & Hsubs).
  - intros n Hn. apply Ht. rewrite C4, D3 in Hn. exact Hn.
  - rewrite C2, D2. simpl. lia.
  - rewrite Ho. exists c'. split; [reflexivity|].
    assert (Ha : auth_frames (connect (disconnect c)) = auth_frames c)
      by (unfold auth_frames; rewrite C5, D4; reflexivity).
    assert (Hr : resubscribe_frames (connect (disconnect c)) = [])
      by (unfold resubscribe_frames; rewrite C1, D1; reflexivity).
    rewrite Ha, Hr, C2, D2, C3, Dw, !app_nil_r in Hwire.
    split; [exact Hwire|].
    split; [rewrite Hsubs, C1; exact D1|].
    split.
    + unfold onopen in Ho.
      destruct (flushMessageQueue _ _ _) as [c4|] eqn:Hf; [|discriminate].
      injection Ho as <-. apply flush_empties in Hf.
      unfold startHeartbeat. rewrite stopHeartbeat_eq. exact Hf.
    + apply onopen_shape in Ho as (q & w & n & ->). reflexivity.
Qed.

Lemma disconnect_forgets_subscriptions_witness :
  exists c',
    run reliable 0 one_subscription [Disconnect; Connect; OnOpen 9] = Some c'
    /\ wire c' = wire one_subscription ++ auth_frames one_subscription
    /\ subscriptions c' = [].
Proof.
  assert (H1 : authRefreshCallback (cfg one_subscription) = false)
    by reflexivity.
  assert (H2 : forall n, wsSendCalls one_subscription <= n ->
                         reliable n = false) by reflexivity.
  destruct (disconnect_forgets_subscriptions reliable 0 9%Z one_subscription
              H1 H2) as (c' & Hr & Hw & Hs & _).
  exists c'. repeat split; assumption.
Defined.

Lemma attemptReconnect_saturated (c : client) :
  reconnectAttempts c = Infinity -> attemptReconnect c = c.
Proof.
  intros H. unfold attemptReconnect. rewrite H. cbn [jsnum_geb].
  now rewrite orb_true_r.
Qed.

Lemma onclose_saturated (c : client) :
  reconnectAttempts c = Infinity ->
  reconnectTimers (onclose c) = reconnectTimers c
  /\ shouldReconnect (onclose c) = shouldReconnect c
  /\ reconnectAttempts (onclose c) = Infinity
  /\ sockets (onclose c) = sockets c
  /\ isConnected (onclose c) = false.
Proof.
  intros H. unfold onclose. rewrite stopHeartbeat_eq. fields.
  destruct (shouldReconnect c) eqn:Hs.
  - rewrite attemptReconnect_saturated by (fields; exact H). fields. auto.
  - fields. auto.
Qed.

(** X9: a [connect] that follows a [disconnect] is not retried when it
    fails.  [disconnect] leaves the attempt counter at its maximum and
    [connect] does not bring it back, so when the new socket closes before
    it opened, [onclose] schedules no reconnect although [shouldReconnect]
    is on again; and no later close schedules one either, as long as no
    socket opens. *)
Theorem connect_after_disconnect_not_retried :
  forall (ws_throws : nat -> bool) (fuel : nat) (c : client),
    maxReconnectAttempts (cfg c) = Infinity ->
    exists c',
      run ws_throws fuel c [Disconnect; Connect; OnClose] = Some c'
      /\ shouldReconnect c' = true
      /\ reconnectAttempts c' = Infinity
      /\ reconnectTimers c' = reconnectTimers c
      /\ isConnected c' = false
      /\ attemptReconnect c' = c'
      /\ reconnectTimers (onclose c') = reconnectTimers c.
Proof.
  intros ws_throws fuel c Hmax. cbn [run step].
  exists (onclose (connect (disconnect c))). split; [reflexivity|].
  destruct (disconnect_fields c) as (_ & _ & _ & _ & _ & D6).
  destruct (disconnect_keeps c) as (_ & _ & Dt & _).
  destruct (connect_fields (disconnect c))
    as (_ & _ & _ & _ & _ & _ & C7 & C8 & C9).
  assert (Hinf : reconnectAttempts (connect (disconnect c)) = Infinity)
    by (rewrite C7, D6; exact Hmax).
  destruct (onclose_saturated _ Hinf) as (O1 & O2 & O3 & _ & O5).
  destruct (onclose_saturated _ O3) as (P1 & _).
  split; [rewrite O2; exact C9|]. split; [exact O3|].
  split; [rewrite O1, C8; exact Dt|]. split; [exact O5|].
  split; [now apply attemptReconnect_saturated|].
  rewrite P1, O1, C8. exact Dt.
Qed.

Lemma connect_after_disconnect_not_retried_witness :
  exists c',
    run reliable 0 one_subscription [Disconnect; Connect; OnClose] = Some c'
    /\ shouldReconnect c' = true
    /\ reconnectTimers c' = reconnectTimers one_subscription.
Proof.
  assert (H : maxReconnectAttempts (cfg one_subscription) = Infinity)
    by reflexivity.
  destruct (connect_after_disconnect_not_retried reliable 0 one_subscription H)
    as (c' & Hr & Hs & _ & Ht & _).
  exists c'. repeat split; assumption.
Defined.

(** The events of a reconnect leave the registry, the queue, the wire and
    the settings alone. *)
Definition same_data (c c' : client) : Prop :=
  cfg c' = cfg c /\ subscriptions c' = subscriptions c
  /\ messageQueue c' = messageQueue c /\ wire c' = wire c
  /\ wsSendCalls c' = wsSendCalls c.

Lemma same_data_trans (a b c : client) :
  same_data a b -> same_data b c -> same_data a c.
Proof.
  unfold same_data. intros (A1 & A2 & A3 & A4 & A5) (B1 & B2 & B3 & B4 & B5).
  repeat split; congruence.
Qed.

Lemma onclose_same_data (c : client) : same_data c (onclose c).
Proof.
  unfold same_data. open_method; repeat split.
Qed.

Lemma connect_same_data (c : client) : same_data c (connect c).
Proof.
  destruct (connect_fields c) as (C1 & C2 & C3 & C4 & _ & C6 & _).
  repeat split; assumption.
Qed.

Lemma connect_resume_same_data (r : option (option string)) (c : client) :
  same_data c (connect_resume r c).
Proof.
  unfold same_data, connect_resume, new_socket.
  destruct (awaiting c); [repeat split|].
  destruct r; fields; repeat split.
Qed.

Lemma onclose_schedules (c : client) (n : nat) :
  maxReconnectAttempts (cfg c) = Infinity ->
  shouldReconnect c = true -> reconnectAttempts c = Fin n ->
  reconnectTimers (onclose c)
  = reconnectTimers c
    ++ [backoff (reconnectDelay (cfg c)) (maxReconnectDelay (cfg c)) n]
  /\ reconnectAttempts (onclose c) = Fin (S n)
  /\ shouldReconnect (onclose c) = true
  /\ authToken (onclose c) = authToken c
  /\ awaiting (onclose c) = awaiting c
  /\ refreshCalls (onclose c) = refreshCalls c
  /\ sockets (onclose c) = sockets c.
Proof.
  intros Hmax Hs Hn. unfold onclose. rewrite stopHeartbeat_eq. fields.
  rewrite Hs. rewrite attemptReconnect_schedules with (n := n);
    [|exact Hmax|exact Hs|exact Hn].
  fields. repeat split. exact Hs.
Qed.

Lemma reconnect_timer_connects (c : client) (d : Z) (rest : list Z) :
  reconnectTimers c = d :: rest -> shouldReconnect c = true ->
  reconnect_timer c = connect (set_reconnectTimers rest c).
Proof.
  intros Ht Hs. unfold reconnect_timer. rewrite Ht. fields. now rewrite Hs.
Qed.

Lemma connect_suspends (c : client) :
  jsnum_pos (reconnectAttempts c) && authRefreshCallback (cfg c) = true ->
  awaiting (connect c) = S (awaiting c)
  /\ refreshCalls (connect c) = S (refreshCalls c)
  /\ sockets (connect c) = sockets c
  /\ ws (connect c) = ws c.
Proof.
  intros H. unfold connect. fields. rewrite H. fields. repeat split.
Qed.

Lemma connect_resume_opens (r : option (option string)) (c : client)
  (a : nat) :
  awaiting c = S a ->
  ws (connect_resume r c) = Some (sockets c)
  /\ sockets (connect_resume r c) = S (sockets c)
  /\ authToken (connect_resume r c)
     = match r with Some token => token | None => authToken c end
  /\ refreshCalls (connect_resume r c) = refreshCalls c
  /\ awaiting (connect_resume r c) = a.
Proof.
  intros H. unfold connect_resume, new_socket. rewrite H.
  destruct r; fields; repeat split.
Qed.

(** X10: a reconnect asks for a fresh token once and authenticates with
    it.  On a client with a refresh callback whose socket closes, the
    reconnect timer's [connect] invokes the callback once and waits; when
    the promise resolves, its token replaces the client's, when it
    rejects the old token is kept, and in both cases one new socket is
    made; when that socket opens, the auth frame carries the token the
    client now holds and every key of the registry is resubscribed. *)
Theorem reconnect_refreshes_token :
  forall (ws_throws : nat -> bool) (fuel : nat) (now : Z) (c : client)
         (n : nat) (r : option (option string)),
    authRefreshCallback (cfg c) = true ->
    maxReconnectAttempts (cfg c) = Infinity ->
    shouldReconnect c = true -> reconnectAttempts c = Fin n ->
    reconnectTimers c = [] -> awaiting c = 0 -> messageQueue c = [] ->
    (forall k, wsSendCalls c <= k -> ws_throws k = false) ->
    exists c',
      run ws_throws fuel c
        [OnClose; ReconnectTimer; RefreshSettled r; OnOpen now] = Some c'
      /\ refreshCalls c' = S (refreshCalls c)
      /\ sockets c' = S (sockets c)
      /\ authToken c'
         = match r with Some token => token | None => authToken c end
      /\ wire c'
         = wire c
           ++ auth_frames
                (set_authToken
                   match r with Some token => token | None => authToken c end
                   c)
           ++ resubscribe_frames c
      /\ subscriptions c' = subscriptions c.
Proof.
  intros ws_throws fuel now c n r Hcb Hmax Hs Hn Ht Ha Hq Hrel.
  cbn [run step].
  destruct (onclose_schedules c n Hmax Hs Hn)
    as (O1 & O2 & O3 & O4 & O5 & O6 & O7).
  rewrite Ht in O1. cbn [app] in O1.
  rewrite (reconnect_timer_connects _ _ _ O1 O3).
  set (c1 := set_reconnectTimers [] (onclose c)).
  assert (D1 : same_data c c1).
  { destruct (onclose_same_data c) as (A1 & A2 & A3 & A4 & A5).
    unfold c1, same_data. fields. repeat split; assumption. }
  assert (Hpos : jsnum_pos (reconnectAttempts c1)
                 && authRefreshCallback (cfg c1) = true).
  { unfold c1. fields. rewrite O2.
    destruct (onclose_same_data c) as (A1 & _). rewrite A1, Hcb.
    reflexivity. }
  destruct (connect_suspends c1 Hpos) as (S1 & S2 & S3 & S4).
  assert (Haw : awaiting (connect c1) = 1)
    by (rewrite S1; unfold c1; fields; rewrite O5, Ha; reflexivity).
  destruct (connect_resume_opens r (connect c1) 0 Haw)
    as (R1 & R2 & R3 & R4 & _).
  pose proof (same_data_trans _ _ _ D1
                (same_data_trans _ _ _ (connect_same_data c1)
                   (connect_resume_same_data r (connect c1))))
    as (E1 & E2 & E3 & E4 & E5).
  set (c3 := connect_resume r (connect c1)) in *.
  assert (Htok : authToken c3
                 = match r with Some t => t | None => authToken c end).
  { rewrite R3. destruct r; [reflexivity|].
    destruct (connect_fields c1) as (_ & _ & _ & _ & C5 & _).
    rewrite C5. unfold c1. fields. exact O4. }
  destruct (onopen_wire ws_throws fuel now c3) as (c' & Ho & Hwire & Hsub).
  - rewrite R1. discriminate.
  - intros k Hk. apply Hrel. rewrite E5 in Hk. exact Hk.
  - rewrite E3, Hq. simpl. lia.
  - rewrite Ho. exists c'. split; [reflexivity|].
    pose proof Ho as Hshape.
    apply onopen_shape in Hshape as (q & w & k & Hshape).
    assert (F1 : refreshCalls c' = refreshCalls c3)
      by (rewrite Hshape; reflexivity).
    assert (F2 : sockets c' = sockets c3) by (rewrite Hshape; reflexivity).
    assert (F3 : authToken c' = authToken c3)
      by (rewrite Hshape; reflexivity).
    split.
    { rewrite F1, R4, S2. unfold c1. fields. now rewrite O6. }
    split.
    { rewrite F2, R2, S3. unfold c1. fields. now rewrite O7. }
    split; [rewrite F3; exact Htok|].
    split; [|rewrite Hsub; exact E2].
    rewrite Hwire, E4, E3, Hq, app_nil_r.
    unfold auth_frames, resubscribe_frames. rewrite Htok, E2. reflexivity.
Qed.

(** A connected client with a token, a refresh callback and one
    subscription. *)
Definition refreshing_client : client :=
  after reliable (constructor (Some "t") true 0)
    [Connect; OnOpen 5; Sub "order_book" (JNum 1) 7 None].

Lemma reconnect_refreshes_token_witness :
  exists c',
    run reliable 0 refreshing_client
      [OnClose; ReconnectTimer; RefreshSettled (Some (Some "t2")); OnOpen 9]
    = Some c'
    /\ refreshCalls c' = S (refreshCalls refreshing_client)
    /\ wire c'
       = wire refreshing_client
         ++ auth_frames (set_authToken (Some "t2") refreshing_client)
         ++ resubscribe_frames refreshing_client.
Proof.
  assert (H1 : authRefreshCallback (cfg refreshing_client) = true)
    by reflexivity.
  assert (H2 : maxReconnectAttempts (cfg refreshing_client) = Infinity)
    by reflexivity.
  assert (H3 : shouldReconnect refreshing_client = true) by reflexivity.
  assert (H4 : reconnectAttempts refreshing_client = Fin 0) by reflexivity.
  assert (H5 : reconnectTimers refreshing_client = []) by reflexivity.
  assert (H6 : awaiting refreshing_client = 0) by reflexivity.
  assert (H7 : messageQueue refreshing_client = []) by reflexivity.
  assert (H8 : forall k, wsSendCalls refreshing_client <= k ->
                         reliable k = false) by reflexivity.
  destruct (reconnect_refreshes_token reliable 0 9%Z refreshing_client 0
              (Some (Some "t2")) H1 H2 H3 H4 H5 H6 H7 H8)
    as (c' & Hr & Hc & _ & _ & Hw & _).
  exists c'. repeat split; assumption.
Defined.

(** ** The queue as a window *)

(** Several [send] calls in a row. *)
Definition send_all (ws_throws : nat -> bool) (frames : list frame)
  (c : client) : client :=
  fold_left (fun c' m => send ws_throws m c') frames c.

(** X11: while the client is not connected, the queue holds the most recent
    frames handed to [send], in the order they were handed over, up to the
    capacity: after any number of sends it is what was queued followed by
    the new frames, cut at the front to the capacity.  Nothing goes on the
    wire. *)
Theorem queue_keeps_latest :
  forall (ws_throws : nat -> bool) (frames : list frame) (c : client),
    isConnected c = false ->
    1 <= maxQueueSize (cfg c) ->
    queue_bounded c ->
    messageQueue (send_all ws_throws frames c)
    = skipn (List.length (messageQueue c ++ frames) - maxQueueSize (cfg c))
        (messageQueue c ++ frames)
    /\ wire (send_all ws_throws frames c) = wire c
    /\ (List.length (messageQueue c ++ frames) <= maxQueueSize (cfg c) ->
        messageQueue (send_all ws_throws frames c) = messageQueue c ++ frames).
Proof.
  intros ws_throws frames.
  assert (H : forall c,
             isConnected c = false -> 1 <= maxQueueSize (cfg c) ->
             queue_bounded c ->
             messageQueue (send_all ws_throws frames c)
             = skipn (List.length (messageQueue c ++ frames)
                      - maxQueueSize (cfg c))
                 (messageQueue c ++ frames)
             /\ wire (send_all ws_throws frames c) = wire c).
  { induction frames as [|m fs IH]; intros c Hc Hcap Hq.
    - unfold send_all. simpl. rewrite app_nil_r. unfold queue_bounded in Hq.
      replace (List.length (messageQueue c) - maxQueueSize (cfg c)) with 0
        by lia.
      split; reflexivity.
    - unfold send_all. simpl. fold (send_all ws_throws fs (send ws_throws m c)).
      destruct (IH (send ws_throws m c)) as [Hqueue Hwire].
      + now rewrite send_isConnected.
      + now rewrite send_cfg.
      + now apply send_queue_bounded.
      + rewrite Hqueue, Hwire, send_cfg.
        rewrite (send_disconnected ws_throws m c Hc). fields.
        split; [|reflexivity].
        unfold queue_bounded in Hq.
        destruct (Nat.ltb_spec (List.length (messageQueue c))
                    (maxQueueSize (cfg c))) as [Hlt|Hge].
        * now rewrite <- app_assoc.
        * destruct (messageQueue c) as [|x t] eqn:E; [simpl in *; lia|].
          cbn [tl]. rewrite <- !app_assoc. cbn [app List.length] in *.
          rewrite !length_app. cbn [List.length].
          replace (List.length t + S (List.length fs) - maxQueueSize (cfg c))
            with (List.length fs) by lia.
          replace (S (List.length t + S (List.length fs))
                   - maxQueueSize (cfg c))
            with (S (List.length fs)) by lia.
          reflexivity. }
  intros c Hc Hcap Hq. destruct (H c Hc Hcap Hq) as [H1 H2].
  split; [exact H1|]. split; [exact H2|].
  intros Hl. rewrite H1.
  replace (List.length (messageQueue c ++ frames) - maxQueueSize (cfg c))
    with 0 by lia.
  reflexivity.
Qed.

Lemma queue_keeps_latest_witness :
  messageQueue
    (send_all reliable [Ping; Pong; Other "a"] (constructor None false 0))
  = messageQueue (constructor None false 0) ++ [Ping; Pong; Other "a"].
Proof.
  destruct (queue_keeps_latest reliable [Ping; Pong; Other "a"]
              (constructor None false 0)) as (_ & _ & H).
  - reflexivity.
  - simpl. lia.
  - unfold queue_bounded. simpl. lia.
  - apply H. simpl. lia.
Defined.

(** ** What events never do *)

Definition is_onopen (e : event) : bool :=
  match e with
  | OnOpen _ => true
  | _ => false
  end.

(** X12: while the client is not connected, nothing reaches the socket:
    whatever is called or fires, short of the socket opening, [ws.send] is
    not called and the wire is unchanged. *)
Theorem disconnected_sends_nothing :
  forall (ws_throws : nat -> bool) (fuel : nat) (c : client) (e : event),
    is_onopen e = false -> isConnected c = false ->
    exists c',
      step ws_throws fuel c e = Some c'
      /\ wire c' = wire c
      /\ wsSendCalls c' = wsSendCalls c.
Proof.
  intros ws_throws fuel c e He Hc.
  destruct e; try discriminate; simpl; eexists; (split; [reflexivity|]);
    unfold_methods; store_shapes;
    repeat (rewrite send_disconnected by (fields; assumption));
    fields; rewrite ?Hc; branches; split; reflexivity.
Qed.

Lemma disconnected_sends_nothing_witness :
  exists c',
    step reliable 0 dropped_once (Sub "trade" (JNum 1) 9 None) = Some c'
    /\ wire c' = wire dropped_once.
Proof.
  destruct (disconnected_sends_nothing reliable 0 dropped_once
              (Sub "trade" (JNum 1) 9 None)) as (c' & H1 & H2 & _);
    [reflexivity|reflexivity|].
  exists c'. split; assumption.
Defined.

(** The events that call a subscribe method, [unsubscribe] or
    [disconnect]. *)
Definition edits_registry (e : event) : bool :=
  match e with
  | Sub _ _ _ _ => true
  | Unsub _ _ => true
  | SubAccountOrders _ _ _ _ => true
  | SubAccountMarket _ _ _ _ => true
  | SubHeight _ => true
  | Disconnect => true
  | _ => false
  end.

(** X13: the registry changes only at the caller's request.  A socket that
    opens or closes, a timer that fires, a message that arrives, a
    [connect] or a [send] leave every key and every handler list as they
    were; so the subscriptions made before a drop are all still there
    when the client reconnects. *)
Theorem registry_survives_connection_events :
  forall (ws_throws : nat -> bool) (fuel : nat) (es : list event)
         (c c' : client),
    forallb (fun e => negb (edits_registry e)) es = true ->
    run ws_throws fuel c es = Some c' ->
    subscriptions c' = subscriptions c.
Proof.
  intros ws_throws fuel es. induction es as [|e es IH]; intros c c' He; simpl.
  - now intros [= <-].
  - simpl in He. apply andb_true_iff in He as [He Hes].
    apply negb_true_iff in He.
    destruct (step ws_throws fuel c e) as [c1|] eqn:E; [|discriminate].
    intros Hrun. rewrite (IH c1 c' Hes Hrun). clear IH Hrun Hes.
    destruct e; try discriminate; simpl in E;
      try (injection E as <-; open_method; reflexivity).
    apply onopen_shape in E as (q & w & n & ->). reflexivity.
Qed.

Lemma registry_survives_connection_events_witness :
  exists c',
    run reliable 0 one_subscription
      [OnClose; ReconnectTimer; OnOpen 9; OnMessage (Msg (TStr "pong") None false) 10]
    = Some c'
    /\ subscriptions c' = subscriptions one_subscription.
Proof.
  eexists. split; [vm_compute; reflexivity|].
  apply (registry_survives_connection_events reliable 0
           [OnClose; ReconnectTimer; OnOpen 9;
            OnMessage (Msg (TStr "pong") None false) 10]);
    vm_compute; reflexivity.
Defined.

Definition is_onmessage (e : event) : bool :=
  match e with
  | OnMessage _ _ => true
  | _ => false
  end.

(** X14: handlers are called only when a message arrives.  No other event
    invokes a callback; in particular [subscribe] does not call the
    handler it registers, and opening, closing or reconnecting calls
    none. *)
Theorem callbacks_only_on_message :
  forall (ws_throws : nat -> bool) (fuel : nat) (es : list event)
         (c c' : client),
    forallb (fun e => negb (is_onmessage e)) es = true ->
    run ws_throws fuel c es = Some c' ->
    delivered c' = delivered c.
Proof.
  intros ws_throws fuel es. induction es as [|e es IH]; intros c c' He; simpl.
  - now intros [= <-].
  - simpl in He. apply andb_true_iff in He as [He Hes].
    apply negb_true_iff in He.
    destruct (step ws_throws fuel c e) as [c1|] eqn:E; [|discriminate].
    intros Hrun. rewrite (IH c1 c' Hes Hrun). clear IH Hrun Hes.
    destruct e; try discriminate; simpl in E;
      try (injection E as <-; open_method; reflexivity).
    apply onopen_shape in E as (q & w & n & ->). reflexivity.
Qed.

Lemma callbacks_only_on_message_witness :
  exists c',
    run reliable 0 one_subscription
      [Sub "order_book" (JNum 1) 8 None; OnClose; ReconnectTimer; OnOpen 9]
    = Some c'
    /\ delivered c' = delivered one_subscription.
Proof.
  eexists. split; [vm_compute; reflexivity|].
  apply (callbacks_only_on_message reliable 0
           [Sub "order_book" (JNum 1) 8 None; OnClose; ReconnectTimer;
            OnOpen 9]);
    vm_compute; reflexivity.
Defined.

(** X15: from the constructor on, the heartbeat interval is installed
    exactly while the client is connected: [onopen] sets both, [onclose]
    and [disconnect] clear both, and nothing else touches either. *)
Theorem heartbeat_runs_iff_connected :
  forall (ws_throws : nat -> bool) (fuel : nat) (token : option string)
         (refresh : bool) (now : Z) (es : list event) (c : client),
    run ws_throws fuel (constructor token refresh now) es = Some c ->
    heartbeatInterval c = isConnected c.
Proof.
  intros ws_throws fuel token refresh now es.
  assert (H : forall c0 c,
             heartbeatInterval c0 = isConnected c0 ->
             run ws_throws fuel c0 es = Some c ->
             heartbeatInterval c = isConnected c).
  { induction es as [|e es IH]; intros c0 c Hi; simpl.
    - now intros [= <-].
    - destruct (step ws_throws fuel c0 e) as [c1|] eqn:E; [|discriminate].
      apply IH. clear IH.
      destruct e; simpl in E;
        try (injection E as <-; open_method; congruence).
      apply onopen_shape in E as (q & w & n & ->). reflexivity. }
  intros c. apply H. reflexivity.
Qed.

Lemma heartbeat_runs_iff_connected_witness :
  heartbeatInterval dropped_once = isConnected dropped_once.
Proof.
  apply (heartbeat_runs_iff_connected reliable 1000 None false 0%Z
           [Connect; OnOpen 5; OnClose] dropped_once).
  vm_compute. reflexivity.
Defined.

(** ** The other subscribe methods and the keys they build *)

Lemma string_app_assoc (a b d : string) :
  ((a ++ b) ++ d)%string = (a ++ b ++ d)%string.
Proof. induction a as [|ch a IH]; simpl; [reflexivity|now rewrite IH]. Qed.

(** X16: [subscribeAccountOrders] and [subscribeAccountMarket] do what
    [subscribe] does on the channel [account_orders/<market>]
    (resp. [account_market/<market>]) whenever the account index is a valid
    id and the token is truthy: same key, same handler list, same frame.
    Unlike [subscribe] they do not check the ids: with a missing account
    index they register a key that ends in [undefined], where [subscribe]
    does nothing. *)
Theorem account_subscriptions_as_subscribe :
  forall (ws_throws : nat -> bool) (marketId accountIndex : jsval)
         (token : option string) (callback : handler) (c : client),
    (invalid_marketId accountIndex = false -> truthy token = true ->
     subscribeAccountOrders ws_throws marketId accountIndex token callback c
     = subscribe ws_throws
         (WS_CHANNELS.ACCOUNT_ORDERS ++ "/" ++ to_js_string marketId)%string
         accountIndex callback token c
     /\ subscribeAccountMarket ws_throws marketId accountIndex token callback c
        = subscribe ws_throws
            (WS_CHANNELS.ACCOUNT_MARKET ++ "/" ++ to_js_string marketId)%string
            accountIndex callback token c)
    /\ map_has
         (WS_CHANNELS.ACCOUNT_ORDERS ++ "/" ++ to_js_string marketId
          ++ "/undefined")%string
         (subscriptions
            (subscribeAccountOrders ws_throws marketId JUndefined token
               callback c)) = true
    /\ map_has
         (WS_CHANNELS.ACCOUNT_MARKET ++ "/" ++ to_js_string marketId
          ++ "/undefined")%string
         (subscriptions
            (subscribeAccountMarket ws_throws marketId JUndefined token
               callback c)) = true
    /\ subscribe ws_throws
         (WS_CHANNELS.ACCOUNT_ORDERS ++ "/" ++ to_js_string marketId)%string
         JUndefined callback token c = c
    /\ subscribe ws_throws
         (WS_CHANNELS.ACCOUNT_MARKET ++ "/" ++ to_js_string marketId)%string
         JUndefined callback token c = c.
Proof.
  intros ws_throws marketId accountIndex token callback c.
  split; [|split; [|split; [|split; reflexivity]]].
  - intros Hv Ht. unfold subscribeAccountOrders, subscribeAccountMarket,
      subscribe. rewrite Hv, Ht. cbv zeta.
    rewrite !string_app_assoc. split; reflexivity.
  - unfold subscribeAccountOrders. cbv zeta.
    rewrite send_subscriptions, store_callback_subscriptions.
    unfold map_has. rewrite string_app_assoc. cbn [to_js_string].
    now rewrite map_get_set_same.
  - unfold subscribeAccountMarket. cbv zeta.
    rewrite send_subscriptions, store_callback_subscriptions.
    unfold map_has. rewrite string_app_assoc. cbn [to_js_string].
    now rewrite map_get_set_same.
Qed.

Lemma account_subscriptions_as_subscribe_witness :
  subscribeAccountOrders reliable (JNum 1) (JNum 42) (Some "tok") 7 open_client
  = subscribe reliable
      (WS_CHANNELS.ACCOUNT_ORDERS ++ "/" ++ to_js_string (JNum 1))%string
      (JNum 42) 7 (Some "tok") open_client.
Proof.
  destruct (account_subscriptions_as_subscribe reliable (JNum 1) (JNum 42)
              (Some "tok") 7 open_client) as (H & _).
  destruct H as (H & _); [reflexivity|reflexivity|]. exact H.
Defined.



(** X18: with the constructor's settings the delay doubles from one second
    for the first six attempts in a row and is sixty seconds for every
    attempt after them. *)
Theorem backoff_reaches_cap :
  forall (refresh : bool) (c : client) (n : nat),
    cfg c = default_config refresh ->
    shouldReconnect c = true -> reconnectAttempts c = Fin n ->
    reconnectTimers (attemptReconnect c)
    = reconnectTimers c
      ++ [if Nat.ltb n 6 then (1000 * 2 ^ Z.of_nat n)%Z else 60000%Z].
Proof.
  intros refresh c n Hcfg Hs Hn.
  rewrite (attemptReconnect_schedules c n);
    [|rewrite Hcfg; reflexivity|exact Hs|exact Hn].
  fields. rewrite Hcfg. cbn [reconnectDelay maxReconnectDelay default_config].
  f_equal. f_equal. unfold backoff.
  destruct (Nat.ltb_spec n 6) as [Hlt|Hge].
  - assert (Hp : (2 ^ Z.of_nat n <= 2 ^ 5)%Z)
      by (apply Z.pow_le_mono_r; lia).
    change (2 ^ 5)%Z with 32%Z in Hp. lia.
  - assert (Hp : (2 ^ 6 <= 2 ^ Z.of_nat n)%Z)
      by (apply Z.pow_le_mono_r; lia).
    change (2 ^ 6)%Z with 64%Z in Hp. lia.
Qed.

Lemma backoff_reaches_cap_witness :
  reconnectTimers (attemptReconnect dropped_once)
  = reconnectTimers dropped_once ++ [2000%Z].
Proof.
  apply (backoff_reaches_cap false dropped_once 1); reflexivity.
Defined.

Lemma unsubscribe_key_gone (ws_throws : nat -> bool)
  (channel : string) (marketId : jsval) (c : client) :
  registry_ok (subscriptions c) ->
  map_get (channel_key channel marketId)
    (subscriptions (unsubscribe ws_throws channel marketId c)) = None
  /\ delivered (unsubscribe ws_throws channel marketId c) = delivered c.
Proof.
  intros Hok. unfold unsubscribe. fold (channel_key channel marketId).
  rewrite send_subscriptions. fields.
  split; [now apply map_get_delete_same|].
  destruct (send_transport_only ws_throws
              (Unsubscribe (channel_key channel marketId))
              (set_subscriptions
                 (map_delete (channel_key channel marketId) (subscriptions c))
                 c)) as (q & w & n & ->).
  reflexivity.
Qed.

(** X19: after [unsubscribe] a message for that channel reaches nobody.
    When the key has no colon, an [update] for it that arrives after the
    [unsubscribe] is dropped, whatever handlers the key had. *)
Theorem unsubscribed_channel_is_silent :
  forall (ws_throws : nat -> bool) (channel rest : string) (marketId : jsval)
         (error : bool) (now : Z) (c : client),
    registry_ok (subscriptions c) ->
    includes_colon (channel_key channel marketId) = false ->
    delivered
      (handleMessage ws_throws
         (Msg (TStr ("update/" ++ rest)%string)
              (Some (channel_key channel marketId)) error) now
         (unsubscribe ws_throws channel marketId c))
    = delivered c.
Proof.
  intros ws_throws channel rest marketId error now c Hok Hcolon.
  destruct (unsubscribe_key_gone ws_throws channel marketId c Hok)
    as [Hnone Hdel].
  unfold handleMessage. simpl type_is. cbv iota. simpl orb. cbv iota.
  simpl prefix. cbv iota.
  assert (Hr : forall message,
             _routeToCallbacks (channel_key channel marketId) message
               (unsubscribe ws_throws channel marketId c)
             = unsubscribe ws_throws channel marketId c).
  { intros message. unfold _routeToCallbacks. now rewrite Hnone, Hcolon. }
  repeat match goal with
    | |- context [if ?b then _ else _] => destruct b
    end; rewrite ?Hr; exact Hdel.
Qed.

Lemma unsubscribed_channel_is_silent_witness :
  delivered
    (handleMessage reliable
       (Msg (TStr ("update/" ++ "order_book/1")%string)
            (Some (channel_key "order_book" (JNum 1))) false) 6
       (unsubscribe reliable "order_book" (JNum 1) one_subscription))
  = delivered one_subscription.
Proof.
  apply (unsubscribed_channel_is_silent reliable "order_book" "order_book/1"
           (JNum 1) false 6%Z one_subscription).
  - unfold registry_ok.
    change (map_keys (subscriptions one_subscription)) with ["order_book/1"].
    repeat constructor. simpl. tauto.
  - reflexivity.
Defined.

(** ** Flushing under failures *)

(** X20: send failures that stop after some call lose nothing at a flush:
    the loop of [flushMessageQueue] ends, the queue is empty, and every
    frame that was queued has gone on the wire once, possibly in another
    order. *)
Theorem flush_survives_transient_failures :
  forall (ws_throws : nat -> bool) (N : nat) (c : client),
    (forall n, N <= n -> ws_throws n = false) ->
    isConnected c = true -> ws c <> None -> queue_bounded c ->
    exists fuel c',
      flushMessageQueue ws_throws fuel c = Some c'
      /\ messageQueue c' = []
      /\ Permutation (wire c') (wire c ++ messageQueue c).
Proof.
  intros ws_throws N c HN Hc Hw Hq.
  destruct (flush_terminates ws_throws N HN
              ((N - wsSendCalls c) + List.length (messageQueue c)) c Hc Hw)
    as (c' & Hf); [apply Nat.le_refl|].
  exists ((N - wsSendCalls c) + List.length (messageQueue c)), c'.
  split; [exact Hf|]. split.
  - exact (flush_empties ws_throws _ c c' Hf).
  - exact (flush_loses_nothing ws_throws _ c c' Hc Hq Hf).
Qed.

Lemma flush_survives_transient_failures_witness :
  exists fuel c',
    flushMessageQueue first_throws fuel three_queued = Some c'
    /\ messageQueue c' = []
    /\ Permutation (wire c') (wire three_queued ++ messageQueue three_queued).
Proof.
  apply (flush_survives_transient_failures first_throws 1 three_queued).
  - intros n Hn. destruct n; [lia|reflexivity].
  - reflexivity.
  - discriminate.
  - unfold queue_bounded. vm_compute. lia.
Defined.

(** X21: [flushMessageQueue] does not return on a queue that is not empty
    when the client is not connected, or when every [ws.send] throws: each
    frame it takes off the front is put back at the end, and no number of
    iterations ends the loop. *)
Theorem flush_never_returns :
  forall (ws_throws : nat -> bool) (fuel : nat) (c : client),
    messageQueue c <> [] -> queue_bounded c ->
    isConnected c = false \/
    (isConnected c = true /\ forall n, ws_throws n = true) ->
    flushMessageQueue ws_throws fuel c = None.
Proof.
  intros ws_throws fuel c Hne Hq [Hc|[Hc Hall]].
  - revert c Hne Hq Hc. induction fuel as [|fuel IH]; intros c Hne Hq Hc;
      simpl; destruct (messageQueue c) as [|m rest] eqn:E; try congruence.
    unfold queue_bounded in Hq. rewrite E in Hq. simpl in Hq.
    assert (Hl : Nat.ltb (List.length rest) (maxQueueSize (cfg c)) = true)
      by (apply Nat.ltb_lt; lia).
    assert (Hs : messageQueue (send ws_throws m (set_messageQueue rest c))
                 = rest ++ [m]).
    { rewrite send_disconnected by exact Hc. fields. now rewrite Hl. }
    apply IH.
    + rewrite Hs. now destruct rest.
    + unfold queue_bounded. rewrite Hs, send_cfg, length_app. simpl.
      fields. lia.
    + rewrite send_isConnected. exact Hc.
  - now apply flush_diverges.
Qed.

Lemma flush_never_returns_witness :
  flushMessageQueue reliable 1000
    (send reliable Ping (constructor None false 0)) = None.
Proof.
  apply (flush_never_returns reliable 1000
           (send reliable Ping (constructor None false 0))).
  - discriminate.
  - unfold queue_bounded. simpl. lia.
  - left. reflexivity.
Defined.

(** ** The height channel *)

Fixpoint includes_slash (s : string) : bool :=
  match s with
  | EmptyString => false
  | String ch r => if Ascii.eqb ch "/" then true else includes_slash r
  end.

Lemma channel_key_has_slash (channel : string) (marketId : jsval) :
  includes_slash (channel_key channel marketId) = true.
Proof.
  unfold channel_key. induction channel as [|ch r IH]; simpl;
    [reflexivity|].
  now destruct (Ascii.eqb ch "/").
Qed.

(** X22: a subscription made by [subscribeHeight] is stored under the bare
    key [height], which no [unsubscribe] call can name, since
    [unsubscribe] always builds a key with a slash: whatever channel and
    id it is given, the handlers on [height] stay. *)
Theorem height_cannot_be_unsubscribed :
  forall (ws_throws : nat -> bool) (callback : handler) (channel : string)
         (marketId : jsval) (c : client),
    map_get WS_CHANNELS.HEIGHT
      (subscriptions (subscribeHeight ws_throws callback c))
    = Some (match map_get WS_CHANNELS.HEIGHT (subscriptions c) with
            | Some cbs => cbs ++ [callback]
            | None => [callback]
            end)
    /\ map_get WS_CHANNELS.HEIGHT
         (subscriptions
            (unsubscribe ws_throws channel marketId
               (subscribeHeight ws_throws callback c)))
       = map_get WS_CHANNELS.HEIGHT
           (subscriptions (subscribeHeight ws_throws callback c)).
Proof.
  intros ws_throws callback channel marketId c. split.
  - unfold subscribeHeight. cbv zeta.
    rewrite send_subscriptions, store_callback_subscriptions.
    apply map_get_set_same.
  - unfold unsubscribe. fold (channel_key channel marketId).
    rewrite send_subscriptions. fields.
    apply map_get_delete_other. intros Heq.
    pose proof (channel_key_has_slash channel marketId) as Hs.
    rewrite <- Heq in Hs. discriminate.
Qed.

(** ** The SDK's account subscription (sdk/core/lighter-sdk.js) *)

(** Truthiness of an id as [!this.config.accountIndex] tests it. *)
Definition js_truthy (v : jsval) : bool :=
  match v with
  | JUndefined => false
  | JNull => false
  | JStr s => negb (s =? "")%string
  | JNum n => negb (N.eqb n 0)
  end.

(** The part of the SDK object these methods use: its [ws] field, which
    holds the client or [null], and [config.accountIndex]. *)
Record sdk : Type := {
  sdk_ws : option client;
  accountIndex : jsval
}.

Inductive outcome : Type :=
| Threw (message : string)
| Returned (s : sdk).

Definition ACCOUNT_ALL : string := "account_all".

(** [subscribeAccountAll], lighter-ws.js lines 380-383. *)
Definition subscribeAccountAll (ws_throws : nat -> bool)
  (accountIndex : jsval) (callback : handler) : client -> client :=
  subscribe ws_throws ACCOUNT_ALL accountIndex callback None.

(** [subscribeToAccountData], lighter-sdk.js lines 633-671; the method has
    no [await], so it runs in one go.  [wrapper] is the closure
    [normalizedCallback] it registers. *)
Definition subscribeToAccountData (ws_throws : nat -> bool)
  (wrapper : handler) (s : sdk) : outcome :=
  match sdk_ws s with
  | None => Threw "WebSocket not connected. Call connectWebSocket() first."
  | Some c =>
      if negb (js_truthy (accountIndex s)) then Threw "Account index required"
      else Returned
             {| sdk_ws := Some (subscribeAccountAll ws_throws (accountIndex s)
                                  wrapper c);
                accountIndex := accountIndex s |}
  end.

(** X23: [subscribeToAccountData] refuses an SDK without a client and an
    account index that is falsy, and that includes account 0, which the
    client's own [subscribe] would take.  Whenever it goes through, the
    client's check of the id passes too: the wrapper is added as the last
    handler of [account_all/<index>] and a subscribe frame without auth is
    handed to [send]. *)
Theorem subscribeToAccountData_guards :
  forall (ws_throws : nat -> bool) (wrapper : handler) (s : sdk),
    (sdk_ws s = None ->
     exists message, subscribeToAccountData ws_throws wrapper s = Threw message)
    /\ (js_truthy (accountIndex s) = false ->
        exists message,
          subscribeToAccountData ws_throws wrapper s = Threw message)
    /\ (forall c,
          subscribeToAccountData ws_throws wrapper
            {| sdk_ws := Some c; accountIndex := JNum 0 |}
          = Threw "Account index required"
          /\ invalid_marketId (JNum 0) = false)
    /\ (forall c,
          sdk_ws s = Some c -> js_truthy (accountIndex s) = true ->
          exists c',
            subscribeToAccountData ws_throws wrapper s
            = Returned {| sdk_ws := Some c'; accountIndex := accountIndex s |}
            /\ map_get (channel_key ACCOUNT_ALL (accountIndex s))
                 (subscriptions c')
               = Some (match map_get (channel_key ACCOUNT_ALL (accountIndex s))
                               (subscriptions c) with
                       | Some cbs => cbs ++ [wrapper]
                       | None => [wrapper]
                       end)
            /\ c' = send ws_throws
                      (Subscribe (channel_key ACCOUNT_ALL (accountIndex s)) None)
                      (store_callback (channel_key ACCOUNT_ALL (accountIndex s))
                         wrapper c)).
Proof.
  intros ws_throws wrapper s. split; [|split; [|split]].
  - intros H. unfold subscribeToAccountData. rewrite H. eauto.
  - intros H. unfold subscribeToAccountData. rewrite H. cbn [negb].
    destruct (sdk_ws s); eauto.
  - intros c. split; reflexivity.
  - intros c Hc Ht. unfold subscribeToAccountData. rewrite Hc, Ht.
    cbn [negb]. eexists. split; [reflexivity|].
    assert (Hv : invalid_marketId (accountIndex s) = false).
    { destruct (accountIndex s) as [| |str|n]; try discriminate;
        [|reflexivity].
      cbn [js_truthy invalid_marketId] in *.
      now destruct (str =? "")%string. }
    destruct (subscribe_subscriptions ws_throws ACCOUNT_ALL (accountIndex s)
                wrapper None c Hv) as [Hs _].
    unfold subscribeAccountAll. rewrite Hs. split; [apply map_get_set_same|].
    unfold subscribe. rewrite Hv. reflexivity.
Qed.

Lemma subscribeToAccountData_guards_witness :
  exists c',
    subscribeToAccountData reliable 3
      {| sdk_ws := Some open_client; accountIndex := JNum 42 |}
    = Returned {| sdk_ws := Some c'; accountIndex := JNum 42 |}
    /\ map_get (channel_key ACCOUNT_ALL (JNum 42)) (subscriptions c')
       = Some [3].
Proof.
  destruct (subscribeToAccountData_guards reliable 3
              {| sdk_ws := Some open_client; accountIndex := JNum 42 |})
    as (_ & _ & _ & H).
  destruct (H open_client) as (c' & H1 & H2 & _);
    [reflexivity|reflexivity|].
  exists c'. split; [exact H1|exact H2].
Defined.
